(** * Requirement extraction for registry artifacts

    A shallow embedding of [build/registry/pkg/oci/requirements.go]:
    [rulesfileRequirement] scrapes the engine version out of a rules file and
    [pluginRequirement] reads the API version a plugin declares.

    Go strings are byte strings and are modelled by [string] (one [ascii] per
    byte).  The library functions the two procedures call ([strings],
    [strconv], [bufio], [errors], [fmt], [github.com/blang/semver]) are
    modelled in their own modules, each function under its Go name. *)

From Stdlib Require Import String Ascii List Bool NArith Lia.
From Stdlib Require Import DecimalString DecimalFacts DecimalN.
Import ListNotations.

#[local] Open Scope list_scope.
#[local] Open Scope string_scope.

(** ** Package [strings] *)

Module strings.

(** [len(s)], in [N] so that large bounds stay cheap. *)
Fixpoint len (s : string) : N :=
  match s with
  | EmptyString => 0
  | String _ s' => N.succ (len s')
  end.

(** [strings.HasPrefix(s, prefix)]. *)
Definition HasPrefix (s pre : string) : bool := String.prefix pre s.

(** [strings.TrimPrefix(s, prefix)]. *)
Fixpoint drop (n : nat) (s : string) : string :=
  match n, s with
  | S n', String _ s' => drop n' s'
  | _, _ => s
  end.

Definition TrimPrefix (s pre : string) : string :=
  if HasPrefix s pre then drop (String.length pre) s else s.

(** Membership of a byte in a set of ASCII characters.  The sets used in
    this program are all ASCII, so rune-wise and byte-wise membership
    agree: a byte of a multi-byte or invalid sequence is never a member. *)
Fixpoint mem (c : ascii) (set : string) : bool :=
  match set with
  | EmptyString => false
  | String d set' => Ascii.eqb c d || mem c set'
  end.

(** [strings.ContainsAny(s, chars)] for ASCII [chars]. *)
Fixpoint ContainsAny (s chars : string) : bool :=
  match s with
  | EmptyString => false
  | String c s' => mem c chars || ContainsAny s' chars
  end.

(** [strings.Cut(s, sep)] for a one-byte separator: the text before and
    after the first [sep], or [None] when [sep] does not occur.  It is the
    common core of [IndexRune], [Split] and [SplitN] below. *)
Fixpoint Cut (s : string) (sep : ascii) : option (string * string) :=
  match s with
  | EmptyString => None
  | String c s' =>
      if Ascii.eqb c sep then Some (EmptyString, s')
      else match Cut s' sep with
           | Some (before, after) => Some (String c before, after)
           | None => None
           end
  end.

(** [strings.Split(s, sep)] for a one-byte separator: all the fields,
    at least one. *)
Fixpoint Split (s : string) (sep : ascii) : list string :=
  match s with
  | EmptyString => [EmptyString]
  | String c s' =>
      if Ascii.eqb c sep then EmptyString :: Split s' sep
      else match Split s' sep with
           | f :: fs => String c f :: fs
           | [] => [String c EmptyString]
           end
  end.

(** [strings.SplitN(s, sep, n)] for a one-byte separator: at most [n]
    fields, the last one being the unsplit rest; [n = 0] gives no field. *)
Fixpoint SplitN (s : string) (sep : ascii) (n : nat) : list string :=
  match n with
  | 0 => []
  | 1 => [s]
  | S n' =>
      match Cut s sep with
      | Some (before, after) => before :: SplitN after sep n'
      | None => [s]
      end
  end.

(** [strings.Join(elems, sep)]. *)
Definition Join (elems : list string) (sep : string) : string :=
  String.concat sep elems.

(** *** [strings.TrimSpace]

    [TrimSpace] removes the runes of [unicode.IsSpace] at both ends.  A
    rune is decoded at an end of the string exactly when the bytes there
    are its UTF-8 encoding, so trimming is the removal of the encodings
    below: the six ASCII spaces, U+0085, U+00A0, U+1680, U+2000..U+200A,
    U+2028, U+2029, U+202F, U+205F and U+3000. *)

Definition asciiSpace (c : ascii) : bool :=
  let n := N_of_ascii c in
  ((9 <=? n) && (n <=? 13) || (n =? 32))%N.

(** Two-byte encodings C2 85 and C2 A0. *)
Definition space2 (c1 c2 : ascii) : bool :=
  let a := N_of_ascii c1 in
  let b := N_of_ascii c2 in
  ((a =? 194) && ((b =? 133) || (b =? 160)))%N.

(** Three-byte encodings E1 9A 80, E2 80 80..8A, E2 80 A8, E2 80 A9,
    E2 80 AF, E2 81 9F and E3 80 80. *)
Definition space3 (c1 c2 c3 : ascii) : bool :=
  let a := N_of_ascii c1 in
  let b := N_of_ascii c2 in
  let c := N_of_ascii c3 in
  ((a =? 225) && (b =? 154) && (c =? 128)
   || (a =? 226) && (b =? 128)
      && ((128 <=? c) && (c <=? 138) || (c =? 168) || (c =? 169)
          || (c =? 175))
   || (a =? 226) && (b =? 129) && (c =? 159)
   || (a =? 227) && (b =? 128) && (c =? 128))%N.

(** Leading spaces, on the bytes in reading order. *)
Fixpoint trimLeft (l : list ascii) : list ascii :=
  match l with
  | c1 :: l1 =>
      if asciiSpace c1 then trimLeft l1
      else match l1 with
           | c2 :: l2 =>
               if space2 c1 c2 then trimLeft l2
               else match l2 with
                    | c3 :: l3 =>
                        if space3 c1 c2 c3 then trimLeft l3 else l
                    | [] => l
                    end
           | [] => l
           end
  | [] => l
  end.

(** Trailing spaces, on the bytes in reverse order: the last byte of an
    encoding comes first. *)
Fixpoint trimRight (r : list ascii) : list ascii :=
  match r with
  | c1 :: r1 =>
      if asciiSpace c1 then trimRight r1
      else match r1 with
           | c2 :: r2 =>
               if space2 c2 c1 then trimRight r2
               else match r2 with
                    | c3 :: r3 =>
                        if space3 c3 c2 c1 then trimRight r3 else r
                    | [] => r
                    end
           | [] => r
           end
  | [] => r
  end.

Definition TrimSpace (s : string) : string :=
  string_of_list_ascii
    (rev (trimRight (rev (trimLeft (list_ascii_of_string s))))).

End strings.

(** ** Package [strconv] *)

Module strconv.

(** 2^64: the values of [uint64] are the naturals below it. *)
Definition uint64_limit : N := 18446744073709551616.

(** [strconv.ParseUint(s, 10, 64)]: a non-empty string of decimal digits
    whose value fits 64 bits; no sign, no underscore. *)
Definition ParseUint (s : string) : option N :=
  match s with
  | EmptyString => None
  | _ =>
      match NilEmpty.uint_of_string s with
      | Some d =>
          let n := N.of_uint d in
          if (n <? uint64_limit)%N then Some n else None
      | None => None
      end
  end.

(** [strconv.FormatUint(n, 10)] and [strconv.AppendUint(nil, n, 10)]. *)
Definition FormatUint (n : N) : string :=
  NilEmpty.string_of_uint (N.to_uint n).

End strconv.

(** ** Package [github.com/blang/semver]

    The import path has no major suffix, which selects v3; the functions are
    those of v3.5.1.  Their errors are [None]: the caller only tests them
    against nil. *)

Module semver.

Import strings.

Notation "'do' x <- e ; k" :=
  (match e with Some x => k | None => None end)
    (at level 10, x pattern, e at level 100, k at level 200,
     only parsing).

Definition numbers : string := "0123456789".
Definition alphas : string :=
  "abcdefghijklmnopqrstuvwxyzABCDEFGHIJKLMNOPQRSTUVWXYZ-".
Definition alphanum : string := alphas ++ numbers.

(** [PRVersion]: one dot-separated identifier of a pre-release. *)
Record PRVersion : Type := mkPR {
  VersionStr : string;
  VersionNum : N;
  IsNum : bool
}.

Record Version : Type := mkVersion {
  Major : N;
  Minor : N;
  Patch : N;
  Pre : list PRVersion;
  Build : list string
}.

(** [containsOnly(s, set)]: every rune of [s] is in [set]. *)
Fixpoint containsOnly (s set : string) : bool :=
  match s with
  | EmptyString => true
  | String c s' => mem c set && containsOnly s' set
  end.

(** [hasLeadingZeroes(s)]: [len(s) > 1 && s[0] == '0']. *)
Definition hasLeadingZeroes (s : string) : bool :=
  match s with
  | String c (String _ _) => Ascii.eqb c "0"
  | _ => false
  end.

(** A numeric field of [Parse]: digits only, no leading zero, and a value
    that [strconv.ParseUint] accepts. *)
Definition parseNumber (s : string) : option N :=
  if negb (containsOnly s numbers) then None
  else if hasLeadingZeroes s then None
  else strconv.ParseUint s.

(** [NewPRVersion(s)]; the error is [None]. *)
Definition NewPRVersion (s : string) : option PRVersion :=
  match s with
  | EmptyString => None
  | _ =>
      if containsOnly s numbers then
        if hasLeadingZeroes s then None
        else
          do num <- strconv.ParseUint s;
          Some (mkPR EmptyString num true)
      else if containsOnly s alphanum then
        Some (mkPR s 0 false)
      else None
  end.

(** The loop of [Parse] over the pre-release identifiers. *)
Fixpoint parsePre (prerelease : list string) : option (list PRVersion) :=
  match prerelease with
  | [] => Some []
  | prstr :: rest =>
      do parsedPR <- NewPRVersion prstr;
      do prs <- parsePre rest;
      Some (parsedPR :: prs)
  end.

(** The loop of [Parse] over the build meta data. *)
Fixpoint parseBuild (build : list string) : option (list string) :=
  match build with
  | [] => Some []
  | str :: rest =>
      match str with
      | EmptyString => None
      | _ =>
          if negb (containsOnly str alphanum) then None
          else
            do bs <- parseBuild rest;
            Some (str :: bs)
      end
  end.

(** [semver.Parse(s)]; the error is [None] (the caller only tests it). *)
Definition Parse (s : string) : option Version :=
  match s with
  | EmptyString => None
  | _ =>
      (* Split into major.minor.(patch+pr+meta) *)
      match SplitN s "." 3 with
      | [p0; p1; p2] =>
          do major <- parseNumber p0;
          do minor <- parseNumber p1;
          let '(build, patchStr) :=
            match Cut p2 "+" with
            | Some (before, after) => (Split after ".", before)
            | None => ([], p2)
            end in
          let '(prerelease, patchStr) :=
            match Cut patchStr "-" with
            | Some (before, after) => (Split after ".", before)
            | None => ([], patchStr)
            end in
          do patch <- parseNumber patchStr;
          do pre <- parsePre prerelease;
          do bld <- parseBuild build;
          Some (mkVersion major minor patch pre bld)
      | _ => None
      end
  end.

(** [ParseTolerant(s)]: trims spaces, removes a [v] prefix and fills a
    short version up with zeros before it calls [Parse]. *)
Definition last_part (parts : list string) : string :=
  List.last parts EmptyString.

Definition fill (parts : list string) : list string :=
  (parts ++ List.repeat "0" (3 - List.length parts))%list.

Definition ParseTolerant (s : string) : option Version :=
  let s := TrimSpace s in
  let s := TrimPrefix s "v" in
  let parts := SplitN s "." 3 in
  if Nat.ltb (List.length parts) 3 then
    if ContainsAny (last_part parts) "+-" then None
    else Parse (Join (fill parts) ".")
  else Parse s.

(** [PRVersion.String()]. *)
Definition PRString (v : PRVersion) : string :=
  if IsNum v then strconv.FormatUint (VersionNum v) else VersionStr v.

(** [Version.String()]. *)
Definition String (v : Version) : string :=
  strconv.FormatUint (Major v) ++ "." ++
  strconv.FormatUint (Minor v) ++ "." ++
  strconv.FormatUint (Patch v) ++
  match Pre v with
  | [] => ""
  | _ => "-" ++ Join (List.map PRString (Pre v)) "."
  end ++
  match Build v with
  | [] => ""
  | _ => "+" ++ Join (Build v) "."
  end.

End semver.

(** ** Package [os] *)

Module os.

(** [*fs.PathError], the error of [os.Open] and of a failed read. *)
Record PathError : Type := mkPathError {
  Op : string;
  Path : string;
  Errno : string
}.

(** An open file, as far as a reader can tell: the bytes its reads deliver
    and what ends them, [io.EOF] ([None]) or a read error. *)
Record File : Type := mkFile {
  data : string;
  readErr : option PathError
}.

(** The file system, as far as [os.Open] can tell. *)
Definition FileSystem : Type := string -> File + PathError.

(** [os.Open(name)]: the pair [(file, err)] with a nil file on failure. *)
Definition Open (fsys : FileSystem) (name : string)
  : option File * option PathError :=
  match fsys name with
  | inl file => (Some file, None)
  | inr err => (None, Some err)
  end.

End os.

(** ** Packages [errors] and [fmt]

    An error built by [fmt.Errorf] is kept as its format and operands, each
    operand under the verb that formats it; the text that [%q] and [%v] would
    render is not modelled. *)

Module errors.

Inductive error : Type :=
| New (text : string)                            (* errors.New(text) *)
| PathErr (e : os.PathError)                     (* a *fs.PathError *)
| Errorf (format : string) (a : list operand)    (* fmt.Errorf(format, a...) *)
with operand : Type :=
| Q (s : string)                                 (* a string under %q *)
| V (file : option os.File)                      (* an *os.File under %v *)
| W (err : error).                               (* an error under %w *)

Definition PathError_eqb (x y : os.PathError) : bool :=
  String.eqb (os.Op x) (os.Op y) && String.eqb (os.Path x) (os.Path y)
  && String.eqb (os.Errno x) (os.Errno y).

Definition option_eqb {A : Type} (eqb : A -> A -> bool) (x y : option A)
  : bool :=
  match x, y with
  | Some a, Some b => eqb a b
  | None, None => true
  | _, _ => false
  end.

Definition File_eqb (x y : os.File) : bool :=
  String.eqb (os.data x) (os.data y)
  && option_eqb PathError_eqb (os.readErr x) (os.readErr y).

(** [==] on error values.  Go compares the pointers; the model compares the
    contents, which agrees on the package-level sentinel of this program. *)
Fixpoint error_eqb (x y : error) : bool :=
  match x, y with
  | New s, New t => String.eqb s t
  | PathErr e, PathErr f => PathError_eqb e f
  | Errorf fx ax, Errorf fy ay =>
      String.eqb fx fy &&
      (fix all2 (xs ys : list operand) : bool :=
         match xs, ys with
         | [], [] => true
         | x' :: xs', y' :: ys' => operand_eqb x' y' && all2 xs' ys'
         | _, _ => false
         end) ax ay
  | _, _ => false
  end
with operand_eqb (x y : operand) : bool :=
  match x, y with
  | Q s, Q t => String.eqb s t
  | V f, V g => option_eqb File_eqb f g
  | W e, W e' => error_eqb e e'
  | _, _ => false
  end.

(** [errors.Unwrap(err)]: the operand of [%w], if any. *)
Fixpoint wrapped (a : list operand) : option error :=
  match a with
  | [] => None
  | W e :: _ => Some e
  | _ :: a' => wrapped a'
  end.

Definition Unwrap (err : error) : option error :=
  match err with
  | Errorf _ a => wrapped a
  | _ => None
  end.

(** [errors.Is(err, target)]: [err] or an error it wraps is [target]. *)
Fixpoint Is (err target : error) : bool :=
  error_eqb err target ||
  match err with
  | Errorf _ a =>
      (fix first (a : list operand) : bool :=
         match a with
         | [] => false
         | W e :: _ => Is e target
         | _ :: a' => first a'
         end) a
  | _ => false
  end.

End errors.

(** ** Package [bufio]: a [Scanner] with the [ScanLines] split function *)

Module bufio.

Import strings.

(** [bufio.MaxScanTokenSize], the size the scanner's buffer can grow to. *)
Definition MaxScanTokenSize : N := 65536.

Inductive scanError : Type :=
| ErrTooLong                     (* bufio.Scanner: token too long *)
| ErrInvalid                     (* os.ErrInvalid, from a nil file *)
| ReadError (e : os.PathError).  (* the error of a failed read *)

(** The scanner: the bytes of its reader not yet consumed, what ends them,
    the last token and the first error met. *)
Record Scanner : Type := mkScanner {
  src : string;
  srcErr : option scanError;
  token : string;
  err : option scanError
}.

(** [bufio.NewScanner(file)].  Reading a nil [*os.File] fails at once with
    [os.ErrInvalid]. *)
Definition NewScanner (file : option os.File) : Scanner :=
  match file with
  | Some f => mkScanner (os.data f) (option_map ReadError (os.readErr f)) "" None
  | None => mkScanner "" (Some ErrInvalid) "" None
  end.

(** [dropCR(data)]: drops one terminal carriage return. *)
Fixpoint dropCR (data : string) : string :=
  match data with
  | EmptyString => EmptyString
  | String c EmptyString =>
      if Ascii.eqb c "013" then EmptyString else data
  | String c data' => String c (dropCR data')
  end.

Definition newline : ascii := "010".

(** [Scanner.Scan()] with [ScanLines].  A line is a token when it and its
    newline fit the buffer; the bytes after the last newline are a token
    when they leave room in the buffer for the reader to report its end.
    Otherwise the buffer fills up with no token in it and the scan stops
    with [ErrTooLong].  At the end of the input the scan stops with the
    error of the reader, if it is not [io.EOF]. *)
Definition Scan (s : Scanner) : bool * Scanner :=
  match err s with
  | Some _ => (false, mkScanner (src s) (srcErr s) "" (err s))
  | None =>
      match src s with
      | EmptyString =>
          (false, mkScanner "" (srcErr s) "" (srcErr s))
      | _ =>
          match Cut (src s) newline with
          | Some (line, rest) =>
              if (len line <? MaxScanTokenSize)%N then
                (true, mkScanner rest (srcErr s) (dropCR line) None)
              else (false, mkScanner (src s) (srcErr s) "" (Some ErrTooLong))
          | None =>
              if (len (src s) <? MaxScanTokenSize)%N then
                (true, mkScanner "" (srcErr s) (dropCR (src s)) None)
              else (false, mkScanner (src s) (srcErr s) "" (Some ErrTooLong))
          end
      end
  end.

(** [Scanner.Text()] and [Scanner.Err()]. *)
Definition Text (s : Scanner) : string := token s.
Definition Err (s : Scanner) : option scanError := err s.

End bufio.

(** ** Package [loader] of the plugin SDK *)

Module loader.

(** [plugins.Info]; of its fields only the one this program reads. *)
Record Info : Type := mkInfo {
  RequiredAPIVersion : string
}.

(** A loaded plugin, as far as [Plugin.Info()] can tell. *)
Record Plugin : Type := mkPlugin {
  info : Info
}.

(** [loader.NewPlugin]: what opening the shared object at a path gives. *)
Definition Loader : Type := string -> Plugin + errors.error.

End loader.

(** ** Package [oci] *)

Module oci.

(** [oci.ArtifactRequirement] of falcoctl. *)
Record ArtifactRequirement : Type := mkArtifactRequirement {
  Name : string;
  Version : string
}.

End oci.

(** ** [requirements.go] *)

Import strings errors.

(** What a call does: it returns its value, returns an error, or panics. *)
Inductive runtimeError : Type :=
| IndexOutOfRange (index length : nat).  (* index out of range [i] with length n *)

Inductive result (A : Type) : Type :=
| Ok (value : A)
| Err (err : error)
| Panic (p : runtimeError).

Arguments Ok {A} value.
Arguments Err {A} err.
Arguments Panic {A} p.

Definition rulesEngineAnchor : string := "- required_engine_version".

(** [ErrReqNotFound]: error when the requirements are not found in the
    rulesfile. *)
Definition ErrReqNotFound : error := New "requirements not found".

(** The [for fileScanner.Scan()] loop of [rulesfileRequirement]: the scanner
    and [requirement] when the loop is left.  Every turn that goes on consumes
    a byte of the file, so [fuel] above the length of the file is never used
    up (lemma [scanLoop_fuel]). *)
Fixpoint scanLoop (fuel : nat) (fileScanner : bufio.Scanner)
  (requirement : string) : bufio.Scanner * string :=
  match fuel with
  | 0 => (fileScanner, requirement)
  | S fuel' =>
      let (more, fileScanner) := bufio.Scan fileScanner in
      if more then
        if HasPrefix (bufio.Text fileScanner) rulesEngineAnchor then
          (fileScanner, bufio.Text fileScanner)          (* break *)
        else scanLoop fuel' fileScanner requirement
      else (fileScanner, requirement)
  end.

Section Requirements.

(** The constants [common.EngineVersionKey] and [common.PluginAPIVersion]
    are declared in package [common]: two fixed identifiers, whatever their
    text. *)
Variable EngineVersionKey : string.
Variable PluginAPIVersion : string.

(** The part of [rulesfileRequirement] after the anchor line is found:
    split the line and parse the version to semVer. *)
Definition parseRequirement (line : string)
  : result oci.ArtifactRequirement :=
  let tokens := Split line ":" in
  match nth_error tokens 1 with
  | None => Panic (IndexOutOfRange 1 (List.length tokens))
  | Some token1 =>
      match
        match semver.Parse token1 with
        | Some reqVer => inl reqVer
        | None =>
            match semver.ParseTolerant token1 with
            | None =>
                inr (Errorf "unable to parse requirement %q: expected a numeric value or a valid semver string"
                            [Q token1])
            | Some reqVer =>
                inl (semver.mkVersion 0 (semver.Major reqVer) 0 [] [])
            end
        end
      with
      | inr err => Err err
      | inl reqVer =>
          Ok (oci.mkArtifactRequirement EngineVersionKey
                (semver.String reqVer))
      end
  end.

(** [rulesfileRequirement]: given a rulesfile in yaml format it scans it and
    extracts its requirements. *)
Definition rulesfileRequirement (fsys : os.FileSystem) (filePath : string)
  : result oci.ArtifactRequirement :=
  match os.Open fsys filePath with
  | (file, Some _) =>
      Err (Errorf "unable to open file %q: %v" [Q filePath; V file])
  | (file, None) =>
      (* defer file.Close() *)
      let fileScanner := bufio.NewScanner file in
      let (fileScanner, requirement) :=
        scanLoop (S (String.length (bufio.src fileScanner))) fileScanner "" in
      if String.eqb requirement "" then
        Err (Errorf "requirements for rulesfile %q: %w"
               [Q filePath; W ErrReqNotFound])
      else parseRequirement (bufio.Text fileScanner)
  end.

(** [pluginRequirement]: given a plugin as a shared library it loads it and
    gets the api version required by the plugin. *)
Definition pluginRequirement (NewPlugin : loader.Loader) (filePath : string)
  : result oci.ArtifactRequirement :=
  match NewPlugin filePath with
  | inr err =>
      Err (Errorf "unable to open plugin %q: %w" [Q filePath; W err])
  | inl plugin =>
      Ok (oci.mkArtifactRequirement PluginAPIVersion
            (loader.RequiredAPIVersion (loader.info plugin)))
  end.

End Requirements.

(** ** The lines of a rules file

    The text lines of a file are the tokens its scanner delivers, in order,
    until [Scan] gives up: at the end of the file, at a line that does not
    fit the buffer, or at a failed read. *)

Definition isAnchor (line : string) : bool := HasPrefix line rulesEngineAnchor.

Fixpoint scanAll (fuel : nat) (s : bufio.Scanner)
  : list string * bufio.Scanner :=
  match fuel with
  | 0 => ([], s)
  | S fuel' =>
      let (more, s') := bufio.Scan s in
      if more then
        let (lines, stop) := scanAll fuel' s' in
        (bufio.Text s' :: lines, stop)
      else ([], s')
  end.

Definition fileScan (file : os.File) : list string * bufio.Scanner :=
  scanAll (S (String.length (os.data file))) (bufio.NewScanner (Some file)).

(** The lines read from [file]. *)
Definition fileLines (file : os.File) : list string := fst (fileScan file).

(** What [fileScanner.Err()] is once all of [file] is scanned. *)
Definition fileErr (file : os.File) : option bufio.scanError :=
  bufio.Err (snd (fileScan file)).

(** The first line with the anchor prefix. *)
Definition firstAnchor (lines : list string) : option string :=
  List.find isAnchor lines.

(** ** The errors of the rules extractor *)

(** The error of a rules file without requirement. *)
Definition notFound (path : string) : error :=
  Errorf "requirements for rulesfile %q: %w" [Q path; W ErrReqNotFound].

(** The error of a version token that is neither numeric nor a semver. *)
Definition parseError (token : string) : error :=
  Errorf "unable to parse requirement %q: expected a numeric value or a valid semver string"
         [Q token].

(** The error of a rules file that cannot be opened. *)
Definition openError (path : string) : error :=
  Errorf "unable to open file %q: %v" [Q path; V None].

(** ** Auxiliary definitions *)

(** The part of [Version.String] for a list of identifiers after [mark]. *)
Definition suffix (mark : string) (ids : list string) : string :=
  match ids with
  | [] => ""
  | _ => mark ++ Join ids "."
  end.

(** A text file of the given lines, each ended by a newline. *)
Fixpoint unlines (lines : list string) : string :=
  match lines with
  | [] => ""
  | line :: rest => line ++ String bufio.newline (unlines rest)
  end.

(** An ordinary line: no newline in it, no carriage return at its end, and
    short enough for the buffer. *)
Definition ordinary (line : string) : Prop :=
  mem bufio.newline line = false /\
  bufio.dropCR line = line /\
  (len line < bufio.MaxScanTokenSize)%N.

(** A file system with one readable file. *)
Definition oneFile (name : string) (file : os.File) : os.FileSystem :=
  fun path =>
    if String.eqb path name then inl file
    else inr (os.mkPathError "open" path "no such file or directory").

(** A file system with one directory: it opens, and reading it fails. *)
Definition oneDirectory (name : string) : os.FileSystem :=
  oneFile name
    (os.mkFile "" (Some (os.mkPathError "read" name "is a directory"))).

(** A loader that knows one plugin. *)
Definition onePlugin (name : string) (plugin : loader.Plugin)
  : loader.Loader :=
  fun path =>
    if String.eqb path name then inl plugin
    else inr (New "cannot load plugin").

(** A line of [n] letters. *)
Definition longLine (n : N) : string := N.iter n (String "a") "".

(** White space of ASCII only, as a rules file has it after the colon. *)
Fixpoint allSpace (s : string) : bool :=
  match s with
  | EmptyString => true
  | String c s' => asciiSpace c && allSpace s'
  end.

(** A text file of the given lines, each ended by a carriage return and a
    newline. *)
Fixpoint unlinesCRLF (lines : list string) : string :=
  match lines with
  | [] => ""
  | line :: rest =>
      line ++ String "013" (String bufio.newline (unlinesCRLF rest))
  end.

(** A line that fits the buffer together with a carriage return. *)
Definition fitsCRLF (line : string) : Prop :=
  mem bufio.newline line = false /\
  (len line + 1 < bufio.MaxScanTokenSize)%N.

(** * Facts about the library models *)

Section StringFacts.

Lemma Cut_Some s sep before after :
  Cut s sep = Some (before, after) -> s = before ++ String sep after.
Proof.
  revert before; induction s as [|c s IH]; simpl; intros before H.
  - discriminate.
  - destruct (Ascii.eqb_spec c sep) as [->|_].
    + now inversion H.
    + destruct (Cut s sep) as [[b a]|]; [|discriminate].
      inversion H; subst. simpl. now rewrite (IH b eq_refl).
Qed.

Lemma Cut_length s sep before after :
  Cut s sep = Some (before, after) -> String.length after < String.length s.
Proof.
  revert before; induction s as [|c s IH]; simpl; intros before H.
  - discriminate.
  - destruct (Ascii.eqb c sep).
    + inversion H; subst; lia.
    + destruct (Cut s sep) as [[b a]|]; [|discriminate].
      inversion H; subst. specialize (IH b eq_refl). lia.
Qed.

(** A separator-free prefix is what [Cut] finds before the separator. *)
Lemma Cut_app s t sep :
  mem sep s = false -> Cut (s ++ String sep t) sep = Some (s, t).
Proof.
  induction s as [|c s IH]; simpl; intros H.
  - now rewrite Ascii.eqb_refl.
  - apply orb_false_elim in H as [Hc Hs].
    rewrite Ascii.eqb_sym, Hc, (IH Hs). reflexivity.
Qed.

Lemma Cut_None s sep : mem sep s = false -> Cut s sep = None.
Proof.
  induction s as [|c s IH]; simpl; intros H; [reflexivity|].
  apply orb_false_elim in H as [Hc Hs].
  now rewrite Ascii.eqb_sym, Hc, (IH Hs).
Qed.

Lemma Split_nonempty s sep : Split s sep <> [].
Proof.
  destruct s as [|c s]; simpl; [discriminate|].
  destruct (Ascii.eqb c sep); [discriminate|].
  destruct (Split s sep); discriminate.
Qed.

Lemma Split_None s sep : mem sep s = false -> Split s sep = [s].
Proof.
  induction s as [|c s IH]; simpl; intros H; [reflexivity|].
  apply orb_false_elim in H as [Hc Hs].
  now rewrite Ascii.eqb_sym, Hc, (IH Hs).
Qed.

Lemma Join_Split s sep : Join (Split s sep) (String sep "") = s.
Proof.
  unfold Join. induction s as [|c s IH]; simpl; [reflexivity|].
  pose proof (Split_nonempty s sep) as Hne.
  destruct (Ascii.eqb_spec c sep) as [->|_];
    destruct (Split s sep) as [|f fs]; try contradiction;
    rewrite <- IH; destruct fs; reflexivity.
Qed.

Lemma SplitN_three s p0 p1 p2 :
  SplitN s "." 3 = [p0; p1; p2] -> s = p0 ++ "." ++ p1 ++ "." ++ p2.
Proof.
  simpl. destruct (Cut s ".") as [[b a]|] eqn:E1; [|discriminate].
  destruct (Cut a ".") as [[b' a']|] eqn:E2; [|discriminate].
  intros H; inversion H; subst.
  apply Cut_Some in E1, E2. now subst.
Qed.

End StringFacts.

Section DecimalFacts.

Import strconv.

Lemma string_of_uint_digits d :
  semver.containsOnly (NilEmpty.string_of_uint d) semver.numbers = true.
Proof. induction d; simpl; auto. Qed.

Lemma FormatUint_digits n : semver.containsOnly (FormatUint n) semver.numbers = true.
Proof. apply string_of_uint_digits. Qed.

Lemma to_uint_normal n : Decimal.unorm (N.to_uint n) = N.to_uint n.
Proof.
  rewrite <- (DecimalN.Unsigned.to_of (N.to_uint n)).
  now rewrite DecimalN.Unsigned.of_to.
Qed.

Lemma unorm_D0_fixed d : Decimal.unorm (Decimal.D0 d) = Decimal.D0 d -> d = Decimal.Nil.
Proof.
  intros H. destruct (Decimal.uint_eq_dec d Decimal.Nil) as [E|E]; [exact E|].
  exfalso. rewrite DecimalFacts.unorm_D0 in H.
  pose proof (DecimalFacts.nb_digits_unorm d E) as Hle.
  rewrite H in Hle. simpl in Hle. lia.
Qed.

Lemma FormatUint_noLeadingZeroes n : semver.hasLeadingZeroes (FormatUint n) = false.
Proof.
  unfold FormatUint. pose proof (to_uint_normal n) as Hn.
  destruct (N.to_uint n) as [|d|d|d|d|d|d|d|d|d|d]; simpl;
    try reflexivity;
    try (destruct (NilEmpty.string_of_uint d); reflexivity).
  apply unorm_D0_fixed in Hn. now subst.
Qed.

Lemma FormatUint_nonempty n : FormatUint n <> "".
Proof.
  unfold FormatUint. pose proof (to_uint_normal n) as Hn.
  destruct (N.to_uint n); simpl; discriminate.
Qed.

Lemma ParseUint_FormatUint n :
  (n < uint64_limit)%N -> ParseUint (FormatUint n) = Some n.
Proof.
  intros Hn. unfold ParseUint.
  pose proof (FormatUint_nonempty n) as Hne.
  destruct (FormatUint n) eqn:E; [contradiction|]. rewrite <- E.
  unfold FormatUint. rewrite NilEmpty.usu, DecimalN.Unsigned.of_to.
  apply N.ltb_lt in Hn. now rewrite Hn.
Qed.

(** A numeric field that [Parse] accepts is printed back as it was read. *)
Lemma parseNumber_Some s n :
  semver.parseNumber s = Some n -> FormatUint n = s /\ (n < uint64_limit)%N.
Proof.
  unfold semver.parseNumber, ParseUint.
  destruct (semver.containsOnly s semver.numbers); simpl; [|discriminate].
  destruct (semver.hasLeadingZeroes s) eqn:Hz; [discriminate|].
  destruct s as [|c s]; [discriminate|].
  destruct (NilEmpty.uint_of_string (String c s)) as [d|] eqn:Hd; [|discriminate].
  destruct (N.ltb_spec (N.of_uint d) uint64_limit) as [Hlt|]; [|discriminate].
  intros H; inversion H; subst n; clear H. split; [|exact Hlt].
  unfold FormatUint. rewrite DecimalN.Unsigned.to_of.
  apply NilEmpty.sus in Hd.
  assert (Hnorm : Decimal.unorm d = d).
  { destruct d; try reflexivity.
    - discriminate.
    - simpl in Hd. inversion Hd; subst. simpl in Hz.
      destruct d; simpl in *; try discriminate. reflexivity. }
  now rewrite Hnorm.
Qed.

Lemma parseNumber_FormatUint n :
  (n < uint64_limit)%N -> semver.parseNumber (FormatUint n) = Some n.
Proof.
  intros Hn. unfold semver.parseNumber.
  rewrite FormatUint_digits, FormatUint_noLeadingZeroes. simpl.
  now apply ParseUint_FormatUint.
Qed.

Lemma digits_no_dot s :
  semver.containsOnly s semver.numbers = true -> mem "." s = false.
Proof.
  induction s as [|c s IH]; [reflexivity|].
  cbn [mem semver.containsOnly].
  intros H. apply andb_prop in H as [Hc Hs]. rewrite (IH Hs), orb_false_r.
  destruct (Ascii.eqb_spec "."%char c) as [<-|]; [discriminate|reflexivity].
Qed.

End DecimalFacts.

Section SemverFacts.

Lemma NewPRVersion_String s p :
  semver.NewPRVersion s = Some p -> semver.PRString p = s.
Proof.
  unfold semver.NewPRVersion.
  destruct s as [|c s]; [discriminate|].
  destruct (semver.containsOnly (String c s) semver.numbers) eqn:Hd.
  - destruct (semver.hasLeadingZeroes (String c s)) eqn:Hz; [discriminate|].
    destruct (strconv.ParseUint (String c s)) as [num|] eqn:Hn; [|discriminate].
    intros H; inversion H; subst p; clear H. unfold semver.PRString; simpl.
    apply (parseNumber_Some (String c s) num).
    unfold semver.parseNumber. now rewrite Hd, Hz.
  - destruct (semver.containsOnly (String c s) semver.alphanum); [|discriminate].
    intros H; inversion H; reflexivity.
Qed.

Lemma parsePre_String l ps :
  semver.parsePre l = Some ps -> List.map semver.PRString ps = l.
Proof.
  revert ps; induction l as [|s l IH]; simpl; intros ps H.
  - now inversion H.
  - destruct (semver.NewPRVersion s) as [p|] eqn:Hp; [|discriminate].
    destruct (semver.parsePre l) as [ps'|]; [|discriminate].
    inversion H; subst ps; simpl.
    now rewrite (NewPRVersion_String _ _ Hp), (IH ps' eq_refl).
Qed.

Lemma parseBuild_same l bs : semver.parseBuild l = Some bs -> bs = l.
Proof.
  revert bs; induction l as [|s l IH]; simpl; intros bs H.
  - now inversion H.
  - destruct s as [|c s]; [discriminate|].
    destruct (semver.containsOnly (String c s) semver.alphanum); [|discriminate].
    simpl in H. destruct (semver.parseBuild l) as [bs'|]; [|discriminate].
    inversion H; subst bs. now rewrite (IH bs' eq_refl).
Qed.

Lemma suffix_Split mark after :
  suffix mark (Split after ".") = mark ++ after.
Proof.
  unfold suffix. pose proof (Split_nonempty after ".") as Hne.
  pose proof (Join_Split after ".") as HJ.
  destruct (Split after "."); [contradiction|]. now rewrite HJ.
Qed.

Lemma String_suffix v :
  semver.String v =
  strconv.FormatUint (semver.Major v) ++ "." ++
  strconv.FormatUint (semver.Minor v) ++ "." ++
  strconv.FormatUint (semver.Patch v) ++
  suffix "-" (List.map semver.PRString (semver.Pre v)) ++
  suffix "+" (semver.Build v).
Proof.
  unfold semver.String, suffix.
  destruct (semver.Pre v), (semver.Build v); reflexivity.
Qed.

Lemma append_assoc (a b c : string) : (a ++ b) ++ c = a ++ (b ++ c).
Proof. induction a; simpl; [reflexivity|now rewrite IHa]. Qed.

Lemma append_empty_r (a : string) : a ++ "" = a.
Proof. induction a; simpl; [reflexivity|now rewrite IHa]. Qed.

(** [Parse] accepts a string only when [String] prints the result back to
    it: a version that is read is read from its canonical form. *)
Theorem Parse_String s v : semver.Parse s = Some v -> semver.String v = s.
Proof.
  unfold semver.Parse. destruct s as [|c0 s0]; [discriminate|].
  set (s := String c0 s0).
  destruct (SplitN s "." 3) as [|p0 [|p1 [|p2 [|? ?]]]] eqn:Hsplit;
    try discriminate.
  apply SplitN_three in Hsplit.
  destruct (semver.parseNumber p0) as [major|] eqn:H0; [|discriminate].
  destruct (semver.parseNumber p1) as [minor|] eqn:H1; [|discriminate].
  apply parseNumber_Some in H0 as [H0 _], H1 as [H1 _].
  assert (Hrest : forall build patchStr,
    p2 = patchStr ++ suffix "+" build ->
    (let '(prerelease, patchStr0) :=
       match Cut patchStr "-" with
       | Some (before, after) => (Split after ".", before)
       | None => ([], patchStr)
       end in
     match semver.parseNumber patchStr0 with
     | Some patch =>
         match semver.parsePre prerelease with
         | Some pre =>
             match semver.parseBuild build with
             | Some bld => Some (semver.mkVersion major minor patch pre bld)
             | None => None
             end
         | None => None
         end
     | None => None
     end) = Some v ->
    semver.String v = s).
  { intros build patchStr Hp2.
    assert (Hpre : exists prerelease patchStr0,
      match Cut patchStr "-" with
      | Some (before, after) => (Split after ".", before)
      | None => ([], patchStr)
      end = (prerelease, patchStr0)
      /\ patchStr = patchStr0 ++ suffix "-" prerelease).
    { destruct (Cut patchStr "-") as [[before after]|] eqn:Hc.
      - exists (Split after "."), before. split; [reflexivity|].
        rewrite suffix_Split. now apply Cut_Some in Hc.
      - exists [], patchStr. split; [reflexivity|].
        simpl. now rewrite append_empty_r. }
    destruct Hpre as (prerelease & patchStr0 & -> & Hps).
    destruct (semver.parseNumber patchStr0) as [patch|] eqn:H2; [|discriminate].
    destruct (semver.parsePre prerelease) as [pre|] eqn:H3; [|discriminate].
    destruct (semver.parseBuild build) as [bld|] eqn:H4; [|discriminate].
    apply parseNumber_Some in H2 as [H2 _].
    apply parsePre_String in H3. apply parseBuild_same in H4. subst bld.
    intros Hv; inversion Hv; subst v; clear Hv.
    rewrite String_suffix. cbn [semver.Major semver.Minor semver.Patch
                                  semver.Pre semver.Build].
    rewrite H0, H1, H2, H3, Hsplit, Hp2, Hps.
    now rewrite !append_assoc. }
  destruct (Cut p2 "+") as [[before after]|] eqn:Hc.
  - intros H. apply (Hrest (Split after ".") before); [|exact H].
    rewrite suffix_Split. now apply Cut_Some in Hc.
  - intros H. apply (Hrest [] p2); [|exact H].
    simpl. now rewrite append_empty_r.
Qed.

(** The fields [Parse] reads are 64-bit numbers. *)
Lemma Parse_Major s v :
  semver.Parse s = Some v -> (semver.Major v < strconv.uint64_limit)%N.
Proof.
  unfold semver.Parse. destruct s as [|c0 s0]; [discriminate|].
  destruct (SplitN (String c0 s0) "." 3) as [|p0 [|p1 [|p2 [|? ?]]]];
    try discriminate.
  destruct (semver.parseNumber p0) as [major|] eqn:H0; [|discriminate].
  apply parseNumber_Some in H0 as [_ H0].
  repeat match goal with
         | |- context [match ?x with _ => _ end] => destruct x
         end; try discriminate;
    intros H; inversion H; exact H0.
Qed.

Lemma ParseTolerant_Parse s v :
  semver.ParseTolerant s = Some v -> exists s', semver.Parse s' = Some v.
Proof.
  unfold semver.ParseTolerant.
  repeat match goal with
         | |- context [if ?x then _ else _] => destruct x
         end; try discriminate; eauto.
Qed.

(** A bare minor version is printed in a form that [Parse] reads back. *)
Lemma Parse_minor m :
  (m < strconv.uint64_limit)%N ->
  semver.Parse (semver.String (semver.mkVersion 0 m 0 [] [])) =
  Some (semver.mkVersion 0 m 0 [] []).
Proof.
  intros Hm.
  change (semver.String (semver.mkVersion 0 m 0 [] []))
    with (String "0" ("." ++ strconv.FormatUint m ++ String "." "0")).
  unfold semver.Parse.
  change (SplitN (String "0" ("." ++ strconv.FormatUint m ++ String "." "0")) "." 3)
    with ("0" :: match Cut (strconv.FormatUint m ++ String "." "0") "." with
                 | Some (before, after) => [before; after]
                 | None => [strconv.FormatUint m ++ String "." "0"]
                 end).
  rewrite Cut_app by (apply digits_no_dot, FormatUint_digits).
  rewrite (parseNumber_FormatUint m Hm). reflexivity.
Qed.

End SemverFacts.

(** * Facts about the scan of a rules file *)

Section ScanFacts.

(** A turn of the loop that goes on has consumed a byte. *)
Lemma Scan_consumes s s' :
  bufio.Scan s = (true, s') ->
  String.length (bufio.src s') < String.length (bufio.src s).
Proof.
  unfold bufio.Scan. destruct (bufio.err s); [discriminate|].
  destruct (bufio.src s) as [|c r] eqn:Hsrc; [discriminate|].
  destruct (Cut (String c r) bufio.newline) as [[line rest]|] eqn:Hcut.
  - destruct (len line <? bufio.MaxScanTokenSize)%N; [|discriminate].
    intros H; inversion H; subst s'; simpl.
    apply (Cut_length _ _ _ _ Hcut).
  - destruct (len (String c r) <? bufio.MaxScanTokenSize)%N; [|discriminate].
    intros H; inversion H; subst s'; simpl. lia.
Qed.

(** The fuel of the loop is never used up: any amount above the length of
    what is left to read gives the same run. *)
Lemma scanLoop_fuel fuel1 fuel2 s requirement :
  String.length (bufio.src s) < fuel1 ->
  String.length (bufio.src s) < fuel2 ->
  scanLoop fuel1 s requirement = scanLoop fuel2 s requirement.
Proof.
  revert fuel2 s; induction fuel1 as [|fuel1 IH]; intros fuel2 s H1 H2;
    [lia|].
  destruct fuel2 as [|fuel2]; [lia|]. simpl.
  destruct (bufio.Scan s) as [more s'] eqn:Hscan.
  destruct more; [|reflexivity].
  destruct (HasPrefix (bufio.Text s') rulesEngineAnchor); [reflexivity|].
  apply Scan_consumes in Hscan. apply IH; lia.
Qed.

Lemma scanAll_fuel fuel1 fuel2 s :
  String.length (bufio.src s) < fuel1 ->
  String.length (bufio.src s) < fuel2 ->
  scanAll fuel1 s = scanAll fuel2 s.
Proof.
  revert fuel2 s; induction fuel1 as [|fuel1 IH]; intros fuel2 s H1 H2;
    [lia|].
  destruct fuel2 as [|fuel2]; [lia|]. simpl.
  destruct (bufio.Scan s) as [more s'] eqn:Hscan.
  destruct more; [|reflexivity].
  apply Scan_consumes in Hscan. rewrite (IH fuel2 s'); [reflexivity|lia|lia].
Qed.

(** With enough fuel, the scan of all lines ends because [Scan] said no. *)
Lemma scanAll_stops fuel s :
  String.length (bufio.src s) < fuel ->
  fst (bufio.Scan (snd (scanAll fuel s))) = false.
Proof.
  revert s; induction fuel as [|fuel IH]; intros s H; [lia|]. simpl.
  destruct (bufio.Scan s) as [more s'] eqn:Hscan.
  destruct more.
  - pose proof (Scan_consumes _ _ Hscan) as Hlt.
    specialize (IH s' ltac:(lia)).
    destruct (scanAll fuel s') as [lines stop]. exact IH.
  - simpl. revert Hscan. unfold bufio.Scan.
    destruct (bufio.err s) eqn:He.
    + intros H'; inversion H'; subst s'; reflexivity.
    + destruct (bufio.src s) as [|c r] eqn:Hsrc.
      * intros H'; inversion H'; subst s'; simpl.
        destruct (bufio.srcErr s); reflexivity.
      * destruct (Cut (String c r) bufio.newline) as [[line rest]|];
          [destruct (len line <? bufio.MaxScanTokenSize)%N
          |destruct (len (String c r) <? bufio.MaxScanTokenSize)%N];
          try discriminate;
          intros H'; inversion H'; subst s'; reflexivity.
Qed.

Lemma isAnchor_nonempty line : isAnchor line = true -> String.eqb line "" = false.
Proof. destruct line; [discriminate|reflexivity]. Qed.

(** The loop leaves with the first anchor line of the lines scanned, in
    [requirement] and as the text of the scanner, or with [requirement]
    untouched when no scanned line has the anchor. *)
Lemma scanLoop_firstAnchor fuel s requirement :
  match firstAnchor (fst (scanAll fuel s)) with
  | Some line =>
      snd (scanLoop fuel s requirement) = line /\
      bufio.Text (fst (scanLoop fuel s requirement)) = line
  | None => snd (scanLoop fuel s requirement) = requirement
  end.
Proof.
  revert s; induction fuel as [|fuel IH]; intros s; simpl; [reflexivity|].
  destruct (bufio.Scan s) as [more s'].
  destruct more; [|reflexivity].
  specialize (IH s').
  destruct (scanAll fuel s') as [lines stop]. simpl in *.
  fold (isAnchor (bufio.Text s')).
  destruct (isAnchor (bufio.Text s')); [split; reflexivity|exact IH].
Qed.

Lemma length_app (a b : string) :
  String.length (a ++ b) = String.length a + String.length b.
Proof. induction a; simpl; [reflexivity|now rewrite IHa]. Qed.

(** A line of ordinary length, followed by its newline, is the next token. *)
Lemma Scan_line line rest srcErr token :
  mem bufio.newline line = false ->
  (len line < bufio.MaxScanTokenSize)%N ->
  bufio.Scan (bufio.mkScanner (line ++ String bufio.newline rest)
                srcErr token None) =
  (true, bufio.mkScanner rest srcErr (bufio.dropCR line) None).
Proof.
  intros Hnl Hlen. unfold bufio.Scan.
  cbn [bufio.err bufio.src bufio.srcErr].
  rewrite (Cut_app line rest bufio.newline Hnl).
  apply N.ltb_lt in Hlen. rewrite Hlen.
  destruct line; reflexivity.
Qed.

Lemma scanAll_unlines lines fuel srcErr token :
  List.Forall ordinary lines ->
  String.length (unlines lines) < fuel ->
  fst (scanAll fuel (bufio.mkScanner (unlines lines) srcErr token None)) =
  lines.
Proof.
  intros Hlines; revert fuel token.
  induction Hlines as [|line lines (Hnl & Hcr & Hlen) _ IH];
    intros fuel token Hfuel.
  - destruct fuel as [|fuel]; [simpl in Hfuel; lia|reflexivity].
  - destruct fuel as [|fuel]; [lia|].
    cbn [scanAll unlines]. rewrite (Scan_line _ _ _ _ Hnl Hlen).
    cbn [unlines] in Hfuel. rewrite length_app in Hfuel. simpl in Hfuel.
    specialize (IH fuel (bufio.dropCR line) ltac:(lia)).
    destruct (scanAll fuel _) as [ls stop]. simpl in *.
    now rewrite Hcr, IH.
Qed.

(** The lines read from a text file of ordinary lines are its lines. *)
Lemma fileLines_unlines lines :
  List.Forall ordinary lines ->
  fileLines (os.mkFile (unlines lines) None) = lines.
Proof.
  intros Hlines. unfold fileLines, fileScan.
  change (bufio.NewScanner (Some (os.mkFile (unlines lines) None)))
    with (bufio.mkScanner (unlines lines) None "" None).
  apply (scanAll_unlines lines _ None "" Hlines).
  cbn [os.data]. lia.
Qed.

End ScanFacts.

(** * The rules extractor, by what the scan finds *)

Section Extractor.

Variable EngineVersionKey : string.
Variable fsys : os.FileSystem.
Variable filePath : string.

Lemma rulesfile_unopened cause :
  fsys filePath = inr cause ->
  rulesfileRequirement EngineVersionKey fsys filePath =
  Err (openError filePath).
Proof.
  intros Hopen. unfold rulesfileRequirement, os.Open. now rewrite Hopen.
Qed.

Lemma rulesfile_found file line :
  fsys filePath = inl file ->
  firstAnchor (fileLines file) = Some line ->
  rulesfileRequirement EngineVersionKey fsys filePath =
  parseRequirement EngineVersionKey line.
Proof.
  intros Hopen Hfirst. unfold rulesfileRequirement, os.Open. rewrite Hopen.
  set (s := bufio.NewScanner (Some file)).
  pose proof (scanLoop_firstAnchor (S (String.length (bufio.src s))) s "")
    as Hloop.
  change (firstAnchor (fileLines file) = Some line) in Hfirst.
  unfold fileLines, fileScan in Hfirst. fold s in Hfirst.
  change (os.data file) with (bufio.src s) in Hfirst.
  rewrite Hfirst in Hloop. destruct Hloop as [Hreq Htext].
  destruct (scanLoop (S (String.length (bufio.src s))) s "")
    as [fileScanner requirement].
  simpl in Hreq, Htext. subst requirement.
  apply List.find_some in Hfirst as [_ Hanchor].
  rewrite (isAnchor_nonempty _ Hanchor). now rewrite Htext.
Qed.

Lemma rulesfile_absent file :
  fsys filePath = inl file ->
  firstAnchor (fileLines file) = None ->
  rulesfileRequirement EngineVersionKey fsys filePath =
  Err (notFound filePath).
Proof.
  intros Hopen Hfirst. unfold rulesfileRequirement, os.Open. rewrite Hopen.
  set (s := bufio.NewScanner (Some file)).
  pose proof (scanLoop_firstAnchor (S (String.length (bufio.src s))) s "")
    as Hloop.
  unfold fileLines, fileScan in Hfirst. fold s in Hfirst.
  change (os.data file) with (bufio.src s) in Hfirst.
  rewrite Hfirst in Hloop.
  destruct (scanLoop (S (String.length (bufio.src s))) s "")
    as [fileScanner requirement].
  simpl in Hloop. now subst requirement.
Qed.

(** Every error of the rules extractor is one of three: the file does not
    open, it has no requirement, or the version token does not parse. *)
Lemma rulesfile_errors e :
  rulesfileRequirement EngineVersionKey fsys filePath = Err e ->
  e = openError filePath \/ e = notFound filePath \/
  exists token, e = parseError token.
Proof.
  destruct (fsys filePath) as [file|cause] eqn:Hopen.
  - destruct (firstAnchor (fileLines file)) as [line|] eqn:Hfirst.
    + rewrite (rulesfile_found file line Hopen Hfirst).
      unfold parseRequirement.
      destruct (nth_error (Split line ":") 1) as [token1|]; [|discriminate].
      destruct (semver.Parse token1); [discriminate|].
      destruct (semver.ParseTolerant token1); [discriminate|].
      intros H; inversion H. right; right. now exists token1.
    + rewrite (rulesfile_absent file Hopen Hfirst).
      intros H; inversion H. now right; left.
  - rewrite (rulesfile_unopened cause Hopen).
    intros H; inversion H. now left.
Qed.

End Extractor.

(** * The requirements of rules files *)

(** C1: for every rules file whose first line with the anchor prefix is
    [- required_engine_version: 3], [rulesfileRequirement] succeeds with the
    name [EngineVersionKey] and the version ["0.3.0"]: the major number of
    the tolerant parse becomes the minor number, major and patch are 0.
    The lines of a file are those its scanner delivers. *)
Theorem bare_integer_is_minor_version
  (EngineVersionKey : string) (fsys : os.FileSystem) (filePath : string)
  (file : os.File) :
  fsys filePath = inl file ->
  firstAnchor (fileLines file) = Some "- required_engine_version: 3" ->
  semver.Parse " 3" = None /\
  semver.ParseTolerant " 3" = Some (semver.mkVersion 3 0 0 [] []) /\
  rulesfileRequirement EngineVersionKey fsys filePath =
  Ok (oci.mkArtifactRequirement EngineVersionKey "0.3.0").
Proof.
  intros Hopen Hfirst. repeat split.
  now rewrite (rulesfile_found _ _ _ _ _ Hopen Hfirst).
Qed.

Lemma bare_integer_example :
  let file := os.mkFile (unlines ["# rules"; "- required_engine_version: 3";
                                  "- rule: shell in container"]) None in
  let fsys := oneFile "rules.yaml" file in
  fsys "rules.yaml" = inl file /\
  firstAnchor (fileLines file) = Some "- required_engine_version: 3" /\
  rulesfileRequirement "engine_version" fsys "rules.yaml" =
  Ok (oci.mkArtifactRequirement "engine_version" "0.3.0").
Proof.
  intros file fsys. split; [reflexivity|split; [reflexivity|]].
  exact (proj2 (proj2 (bare_integer_is_minor_version "engine_version"
                         fsys "rules.yaml" file eq_refl eq_refl))).
Defined.

(** C2: for a rules file whose first anchor line is
    [- required_engine_version: 1.2.3], the token handed to the strict
    parser is [" 1.2.3"], space included; the strict parser refuses it, the
    tolerant parser reads 1.2.3, and the version returned is ["0.1.0"], not
    ["1.2.3"]. *)
Theorem semver_after_space_is_remapped
  (EngineVersionKey : string) (fsys : os.FileSystem) (filePath : string)
  (file : os.File) :
  fsys filePath = inl file ->
  firstAnchor (fileLines file) = Some "- required_engine_version: 1.2.3" ->
  semver.Parse " 1.2.3" = None /\
  rulesfileRequirement EngineVersionKey fsys filePath =
  Ok (oci.mkArtifactRequirement EngineVersionKey "0.1.0").
Proof.
  intros Hopen Hfirst. split; [reflexivity|].
  now rewrite (rulesfile_found _ _ _ _ _ Hopen Hfirst).
Qed.

Lemma semver_after_space_example :
  let file := os.mkFile (unlines ["- required_engine_version: 1.2.3"]) None in
  let fsys := oneFile "rules.yaml" file in
  fsys "rules.yaml" = inl file /\
  firstAnchor (fileLines file) = Some "- required_engine_version: 1.2.3" /\
  rulesfileRequirement "engine_version" fsys "rules.yaml" =
  Ok (oci.mkArtifactRequirement "engine_version" "0.1.0").
Proof.
  intros file fsys. split; [reflexivity|split; [reflexivity|]].
  exact (proj2 (semver_after_space_is_remapped "engine_version"
                  fsys "rules.yaml" file eq_refl eq_refl)).
Defined.

Lemma Forall_firstAnchor_None lines :
  List.Forall (fun line => HasPrefix line rulesEngineAnchor = false) lines ->
  firstAnchor lines = None.
Proof.
  induction 1 as [|line lines Hline _ IH]; simpl; [reflexivity|].
  unfold isAnchor. now rewrite Hline.
Qed.

(** C3: for every rules file in which no line begins with the anchor prefix,
    [rulesfileRequirement] fails with an error that [errors.Is] matches with
    [ErrReqNotFound] and that has the file path as an operand. *)
Theorem missing_anchor_is_not_found
  (EngineVersionKey : string) (fsys : os.FileSystem) (filePath : string)
  (file : os.File) :
  fsys filePath = inl file ->
  List.Forall (fun line => HasPrefix line rulesEngineAnchor = false)
    (fileLines file) ->
  rulesfileRequirement EngineVersionKey fsys filePath =
  Err (Errorf "requirements for rulesfile %q: %w"
         [Q filePath; W ErrReqNotFound]) /\
  errors.Is (Errorf "requirements for rulesfile %q: %w"
               [Q filePath; W ErrReqNotFound]) ErrReqNotFound = true.
Proof.
  intros Hopen Hnone. split; [|reflexivity].
  apply (rulesfile_absent _ _ _ _ Hopen).
  now apply Forall_firstAnchor_None.
Qed.

Lemma missing_anchor_example :
  let file := os.mkFile (unlines ["- rule: one"; "  - required_engine_version: 3"]) None in
  let fsys := oneFile "rules.yaml" file in
  fsys "rules.yaml" = inl file /\
  List.Forall (fun line => HasPrefix line rulesEngineAnchor = false)
    (fileLines file) /\
  exists err,
    rulesfileRequirement "engine_version" fsys "rules.yaml" = Err err /\
    errors.Is err ErrReqNotFound = true.
Proof.
  intros file fsys.
  assert (Hnone : List.Forall
            (fun line => HasPrefix line rulesEngineAnchor = false)
            (fileLines file)).
  { repeat constructor. }
  split; [reflexivity|split; [exact Hnone|]].
  eexists.
  exact (missing_anchor_is_not_found "engine_version"
           fsys "rules.yaml" file eq_refl Hnone).
Defined.

(** C4: for every rules file whose first anchor line has, at index 1 of its
    split on [:], a token that neither [Parse] nor [ParseTolerant] accepts,
    [rulesfileRequirement] fails with the parse error: its operand is that
    raw token and its text says that a numeric value or a valid semver
    string was expected. *)
Theorem unparseable_token_is_reported
  (EngineVersionKey : string) (fsys : os.FileSystem) (filePath : string)
  (file : os.File) (line token : string) :
  fsys filePath = inl file ->
  firstAnchor (fileLines file) = Some line ->
  nth_error (Split line ":") 1 = Some token ->
  semver.Parse token = None ->
  semver.ParseTolerant token = None ->
  rulesfileRequirement EngineVersionKey fsys filePath =
  Err (Errorf "unable to parse requirement %q: expected a numeric value or a valid semver string"
         [Q token]).
Proof.
  intros Hopen Hfirst Htoken Hstrict Htolerant.
  rewrite (rulesfile_found _ _ _ _ _ Hopen Hfirst).
  unfold parseRequirement. now rewrite Htoken, Hstrict, Htolerant.
Qed.

Lemma unparseable_token_example :
  let file := os.mkFile (unlines ["- required_engine_version: notaversion"]) None in
  let fsys := oneFile "rules.yaml" file in
  fsys "rules.yaml" = inl file /\
  firstAnchor (fileLines file) = Some "- required_engine_version: notaversion" /\
  nth_error (Split "- required_engine_version: notaversion" ":") 1 =
    Some " notaversion" /\
  semver.Parse " notaversion" = None /\
  semver.ParseTolerant " notaversion" = None /\
  rulesfileRequirement "engine_version" fsys "rules.yaml" =
  Err (Errorf "unable to parse requirement %q: expected a numeric value or a valid semver string"
         [Q " notaversion"]).
Proof.
  intros file fsys. do 5 (split; [reflexivity|]).
  exact (unparseable_token_is_reported "engine_version"
           fsys "rules.yaml" file
           "- required_engine_version: notaversion" " notaversion"
           eq_refl eq_refl eq_refl eq_refl eq_refl).
Defined.

(** C5: when the first anchor line has no [:], its split has one field and
    the access to the field at index 1 panics with an index out of range:
    no error is returned to the caller. *)
Theorem anchor_without_colon_panics
  (EngineVersionKey : string) (fsys : os.FileSystem) (filePath : string)
  (file : os.File) (line : string) :
  fsys filePath = inl file ->
  firstAnchor (fileLines file) = Some line ->
  mem ":" line = false ->
  rulesfileRequirement EngineVersionKey fsys filePath =
  Panic (IndexOutOfRange 1 1).
Proof.
  intros Hopen Hfirst Hcolon.
  rewrite (rulesfile_found _ _ _ _ _ Hopen Hfirst).
  unfold parseRequirement. now rewrite (Split_None _ _ Hcolon).
Qed.

Lemma anchor_without_colon_example :
  let file := os.mkFile (unlines ["- required_engine_version 3"]) None in
  let fsys := oneFile "rules.yaml" file in
  fsys "rules.yaml" = inl file /\
  firstAnchor (fileLines file) = Some "- required_engine_version 3" /\
  mem ":" "- required_engine_version 3" = false /\
  rulesfileRequirement "engine_version" fsys "rules.yaml" =
  Panic (IndexOutOfRange 1 1).
Proof.
  intros file fsys. do 3 (split; [reflexivity|]).
  exact (anchor_without_colon_panics "engine_version"
           fsys "rules.yaml" file "- required_engine_version 3"
           eq_refl eq_refl eq_refl).
Defined.

Lemma firstAnchor_app before first after :
  List.Forall (fun line => HasPrefix line rulesEngineAnchor = false) before ->
  HasPrefix first rulesEngineAnchor = true ->
  firstAnchor (before ++ first :: after)%list = Some first.
Proof.
  intros Hbefore Hfirst.
  induction Hbefore as [|line before Hline _ IH]; simpl; unfold isAnchor.
  - now rewrite Hfirst.
  - rewrite Hline. exact IH.
Qed.

(** C6: of the lines that begin with the anchor prefix, only the first in
    file order is used: whatever lines follow it, the result is that of the
    first one alone, and with [- required_engine_version: 1] first the
    version is ["0.1.0"] even when [- required_engine_version: 2] comes
    later. *)
Theorem only_first_anchor_is_used
  (EngineVersionKey : string) (fsys : os.FileSystem) (filePath : string)
  (file : os.File) (before after : list string) (first : string) :
  fsys filePath = inl file ->
  fileLines file = (before ++ first :: after)%list ->
  List.Forall (fun line => HasPrefix line rulesEngineAnchor = false) before ->
  HasPrefix first rulesEngineAnchor = true ->
  rulesfileRequirement EngineVersionKey fsys filePath =
  parseRequirement EngineVersionKey first /\
  (first = "- required_engine_version: 1" ->
   rulesfileRequirement EngineVersionKey fsys filePath =
   Ok (oci.mkArtifactRequirement EngineVersionKey "0.1.0")).
Proof.
  intros Hopen Hlines Hbefore Hfirst.
  assert (Hresult : rulesfileRequirement EngineVersionKey fsys filePath =
                    parseRequirement EngineVersionKey first).
  { apply (rulesfile_found _ _ _ file); [exact Hopen|].
    rewrite Hlines. now apply firstAnchor_app. }
  split; [exact Hresult|].
  intros ->. now rewrite Hresult.
Qed.

Lemma only_first_anchor_example :
  let file := os.mkFile (unlines ["# rules"; "- required_engine_version: 1";
                                  "- macro: m";
                                  "- required_engine_version: 2"]) None in
  let fsys := oneFile "rules.yaml" file in
  fsys "rules.yaml" = inl file /\
  fileLines file =
    (["# rules"] ++ "- required_engine_version: 1"
       :: ["- macro: m"; "- required_engine_version: 2"])%list /\
  List.Forall (fun line => HasPrefix line rulesEngineAnchor = false)
    ["# rules"] /\
  HasPrefix "- required_engine_version: 1" rulesEngineAnchor = true /\
  rulesfileRequirement "engine_version" fsys "rules.yaml" =
  Ok (oci.mkArtifactRequirement "engine_version" "0.1.0").
Proof.
  intros file fsys.
  assert (Hbefore : List.Forall
            (fun line => HasPrefix line rulesEngineAnchor = false)
            ["# rules"]).
  { repeat constructor. }
  split; [reflexivity|split; [reflexivity|split; [exact Hbefore|]]].
  split; [reflexivity|].
  exact (proj2 (only_first_anchor_is_used "engine_version" fsys "rules.yaml"
                  file ["# rules"]
                  ["- macro: m"; "- required_engine_version: 2"]
                  "- required_engine_version: 1"
                  eq_refl eq_refl Hbefore eq_refl) eq_refl).
Defined.

(** C7: when the rules file cannot be opened, the error returned has the
    file path as an operand; its other operand is the nil file and not the
    error of [os.Open], so the cause of the failure is neither in it nor
    wrapped by it. *)
Theorem open_failure_drops_the_cause
  (EngineVersionKey : string) (fsys : os.FileSystem) (filePath : string)
  (cause : os.PathError) :
  fsys filePath = inr cause ->
  rulesfileRequirement EngineVersionKey fsys filePath =
  Err (Errorf "unable to open file %q: %v" [Q filePath; V None]) /\
  errors.Unwrap (Errorf "unable to open file %q: %v" [Q filePath; V None]) =
  None /\
  errors.Is (Errorf "unable to open file %q: %v" [Q filePath; V None])
    (PathErr cause) = false.
Proof.
  intros Hopen. split; [|split; reflexivity].
  exact (rulesfile_unopened _ _ _ cause Hopen).
Qed.

Lemma open_failure_example :
  let cause := os.mkPathError "open" "absent.yaml" "no such file or directory" in
  let fsys := oneFile "rules.yaml" (os.mkFile "" None) in
  fsys "absent.yaml" = inr cause /\
  rulesfileRequirement "engine_version" fsys "absent.yaml" =
  Err (Errorf "unable to open file %q: %v" [Q "absent.yaml"; V None]).
Proof.
  intros cause fsys. split; [reflexivity|].
  exact (proj1 (open_failure_drops_the_cause "engine_version" fsys
                  "absent.yaml" cause eq_refl)).
Defined.

(** C8: for every plugin path that the loader opens, [pluginRequirement]
    returns the name [PluginAPIVersion] and, as the version, the
    [RequiredAPIVersion] the plugin declares, as it is; a declared ["2.0.0"]
    gives exactly the pair of [PluginAPIVersion] and ["2.0.0"]. *)
Theorem plugin_version_is_verbatim
  (PluginAPIVersion : string) (NewPlugin : loader.Loader) (filePath : string)
  (plugin : loader.Plugin) :
  NewPlugin filePath = inl plugin ->
  pluginRequirement PluginAPIVersion NewPlugin filePath =
  Ok (oci.mkArtifactRequirement PluginAPIVersion
        (loader.RequiredAPIVersion (loader.info plugin))) /\
  (loader.RequiredAPIVersion (loader.info plugin) = "2.0.0" ->
   pluginRequirement PluginAPIVersion NewPlugin filePath =
   Ok (oci.mkArtifactRequirement PluginAPIVersion "2.0.0")).
Proof.
  intros Hopen. unfold pluginRequirement. rewrite Hopen.
  split; [reflexivity|]. now intros ->.
Qed.

Lemma plugin_version_example :
  let plugin := loader.mkPlugin (loader.mkInfo "2.0.0") in
  let NewPlugin := onePlugin "libk8saudit.so" plugin in
  NewPlugin "libk8saudit.so" = inl plugin /\
  pluginRequirement "plugin_api_version" NewPlugin "libk8saudit.so" =
  Ok (oci.mkArtifactRequirement "plugin_api_version" "2.0.0").
Proof.
  intros plugin NewPlugin. split; [reflexivity|].
  exact (proj2 (plugin_version_is_verbatim "plugin_api_version" NewPlugin
                  "libk8saudit.so" plugin eq_refl) eq_refl).
Defined.

Lemma parseRequirement_semver EngineVersionKey line requirement :
  parseRequirement EngineVersionKey line = Ok requirement ->
  exists v,
    semver.Parse (oci.Version requirement) = Some v /\
    semver.String v = oci.Version requirement.
Proof.
  unfold parseRequirement.
  destruct (nth_error (Split line ":") 1) as [token1|]; [|discriminate].
  destruct (semver.Parse token1) as [reqVer|] eqn:Hstrict.
  - intros H; inversion H; subst requirement; simpl.
    exists reqVer. pose proof (Parse_String _ _ Hstrict) as Hs.
    rewrite Hs. now split.
  - destruct (semver.ParseTolerant token1) as [reqVer|] eqn:Htolerant;
      [|discriminate].
    intros H; inversion H; subst requirement; simpl.
    apply ParseTolerant_Parse in Htolerant as [s' Hs'].
    apply Parse_Major in Hs'.
    exists (semver.mkVersion 0 (semver.Major reqVer) 0 [] []).
    split; [now apply Parse_minor|reflexivity].
Qed.

(** C9: for every rules file on which [rulesfileRequirement] succeeds, the
    version returned is a semantic version in canonical form: the strict
    parser reads it, as a version that is printed as that same string; so
    it is also when the token of the file was a bare integer. *)
Theorem rulesfile_version_is_semver
  (EngineVersionKey : string) (fsys : os.FileSystem) (filePath : string)
  (requirement : oci.ArtifactRequirement) :
  rulesfileRequirement EngineVersionKey fsys filePath = Ok requirement ->
  exists v,
    semver.Parse (oci.Version requirement) = Some v /\
    semver.String v = oci.Version requirement.
Proof.
  destruct (fsys filePath) as [file|cause] eqn:Hopen.
  - destruct (firstAnchor (fileLines file)) as [line|] eqn:Hfirst.
    + rewrite (rulesfile_found _ _ _ file line Hopen Hfirst).
      apply parseRequirement_semver.
    + now rewrite (rulesfile_absent _ _ _ file Hopen Hfirst).
  - now rewrite (rulesfile_unopened _ _ _ cause Hopen).
Qed.

Lemma rulesfile_version_example :
  let file := os.mkFile (unlines ["- required_engine_version: 17"]) None in
  let fsys := oneFile "rules.yaml" file in
  rulesfileRequirement "engine_version" fsys "rules.yaml" =
  Ok (oci.mkArtifactRequirement "engine_version" "0.17.0") /\
  exists v,
    semver.Parse "0.17.0" = Some v /\ semver.String v = "0.17.0".
Proof.
  intros file fsys. split; [reflexivity|].
  exact (rulesfile_version_is_semver "engine_version" fsys "rules.yaml"
           (oci.mkArtifactRequirement "engine_version" "0.17.0") eq_refl).
Defined.

(** C10: when the scanner stops on an error (a line that does not fit its
    buffer, a failed read) before any line with the anchor prefix, the
    error of the scanner is not looked at and [rulesfileRequirement] returns
    the error of a missing requirement for that path; no call of the rules
    extractor returns an error of another kind than the open, the missing
    requirement and the parse error. *)
Theorem scan_error_is_not_found
  (EngineVersionKey : string) (fsys : os.FileSystem) (filePath : string)
  (file : os.File) (scanErr : bufio.scanError) :
  fsys filePath = inl file ->
  fileErr file = Some scanErr ->
  firstAnchor (fileLines file) = None ->
  rulesfileRequirement EngineVersionKey fsys filePath =
  Err (Errorf "requirements for rulesfile %q: %w"
         [Q filePath; W ErrReqNotFound]) /\
  errors.Is (Errorf "requirements for rulesfile %q: %w"
               [Q filePath; W ErrReqNotFound]) ErrReqNotFound = true /\
  (forall fsys' filePath' err,
     rulesfileRequirement EngineVersionKey fsys' filePath' = Err err ->
     err = openError filePath' \/ err = notFound filePath' \/
     exists token, err = parseError token).
Proof.
  intros Hopen _ Hnone. split; [|split; [reflexivity|]].
  - exact (rulesfile_absent _ _ _ file Hopen Hnone).
  - intros fsys' filePath' err. apply rulesfile_errors.
Qed.

Lemma scan_error_example :
  let cause := os.mkPathError "read" "rules.d" "is a directory" in
  let fsys := oneDirectory "rules.d" in
  fsys "rules.d" = inl (os.mkFile "" (Some cause)) /\
  fileErr (os.mkFile "" (Some cause)) = Some (bufio.ReadError cause) /\
  firstAnchor (fileLines (os.mkFile "" (Some cause))) = None /\
  rulesfileRequirement "engine_version" fsys "rules.d" =
  Err (Errorf "requirements for rulesfile %q: %w"
         [Q "rules.d"; W ErrReqNotFound]).
Proof.
  intros cause fsys. do 3 (split; [reflexivity|]).
  exact (proj1 (scan_error_is_not_found "engine_version" fsys "rules.d"
                  (os.mkFile "" (Some cause)) (bufio.ReadError cause)
                  eq_refl eq_refl eq_refl)).
Defined.

(** A line of 65536 bytes does not fit the buffer: the scan stops there with
    [ErrTooLong], the anchor line after it is never read, and the file is
    reported to have no requirement. *)
Example too_long_line_hides_anchor :
  let file :=
    os.mkFile (unlines [longLine 65536; "- required_engine_version: 3"])
      None in
  fileErr file = Some bufio.ErrTooLong /\
  fileLines file = [] /\
  rulesfileRequirement "engine_version" (oneFile "rules.yaml" file)
    "rules.yaml" = Err (notFound "rules.yaml").
Proof. vm_compute. repeat split. Qed.

(** A line of 65535 bytes still fits. *)
Example longest_line_fits :
  let file :=
    os.mkFile (unlines [longLine 65535; "- required_engine_version: 3"])
      None in
  fileErr file = None /\
  rulesfileRequirement "engine_version" (oneFile "rules.yaml" file)
    "rules.yaml" = Ok (oci.mkArtifactRequirement "engine_version" "0.3.0").
Proof. vm_compute. repeat split. Qed.

(** * Further facts about the library models *)

Section TokenFacts.

Lemma mem_app c (a b : string) : mem c (a ++ b) = mem c a || mem c b.
Proof.
  induction a as [|d a IH]; simpl; [reflexivity|].
  now rewrite IH, orb_assoc.
Qed.

(** A byte outside a set is not in a string made of the set. *)
Lemma containsOnly_mem c s set :
  semver.containsOnly s set = true -> mem c set = false -> mem c s = false.
Proof.
  intros Hs Hc. induction s as [|d s IH]; [reflexivity|].
  cbn [mem semver.containsOnly] in *.
  apply andb_prop in Hs as [Hd Hs]. rewrite (IH Hs), orb_false_r.
  destruct (Ascii.eqb_spec c d) as [->|]; [congruence|reflexivity].
Qed.

Lemma allSpace_mem c pad :
  allSpace pad = true -> asciiSpace c = false -> mem c pad = false.
Proof.
  intros Hpad Hc. induction pad as [|d pad IH]; [reflexivity|].
  cbn [mem allSpace] in *.
  apply andb_prop in Hpad as [Hd Hpad]. rewrite (IH Hpad), orb_false_r.
  destruct (Ascii.eqb_spec c d) as [->|]; [congruence|reflexivity].
Qed.

Lemma Split_app a b sep :
  mem sep a = false -> Split (a ++ String sep b) sep = a :: Split b sep.
Proof.
  induction a as [|c a IH]; simpl; intros H.
  - now rewrite Ascii.eqb_refl.
  - apply orb_false_elim in H as [Hc Ha].
    rewrite Ascii.eqb_sym, Hc, (IH Ha). reflexivity.
Qed.

(** A string with the separator in it has a second field. *)
Lemma Split_mem s sep :
  mem sep s = true ->
  exists f g rest, Split s sep = f :: g :: rest.
Proof.
  induction s as [|c s IH]; simpl; [discriminate|].
  pose proof (Split_nonempty s sep) as Hne.
  destruct (Ascii.eqb_spec sep c) as [<-|Hc]; simpl.
  - intros _. rewrite Ascii.eqb_refl.
    destruct (Split s sep) as [|g rest]; [contradiction|]. eauto.
  - intros Hs. destruct (IH Hs) as (f & g & rest & ->).
    destruct (Ascii.eqb_spec c sep) as [->|_]; [contradiction|]. eauto.
Qed.

Lemma list_ascii_app (a b : string) :
  list_ascii_of_string (a ++ b) =
  (list_ascii_of_string a ++ list_ascii_of_string b)%list.
Proof. induction a; simpl; [reflexivity|now rewrite IHa]. Qed.

Lemma trimLeft_spaces pad l :
  allSpace pad = true ->
  trimLeft (list_ascii_of_string pad ++ l)%list = trimLeft l.
Proof.
  induction pad as [|c pad IH]; [reflexivity|].
  cbn [allSpace]. intros H. apply andb_prop in H as [Hc Hpad].
  cbn [list_ascii_of_string app trimLeft]. rewrite Hc. now apply IH.
Qed.

(** A decimal digit is no space and no byte of the encoding of one. *)
Lemma digit_cases c :
  mem c semver.numbers = true ->
  In c ["0"; "1"; "2"; "3"; "4"; "5"; "6"; "7"; "8"; "9"]%char.
Proof.
  unfold semver.numbers. cbn [mem]. intros H.
  repeat (apply orb_prop in H as [H|H];
          [apply Ascii.eqb_eq in H; subst; simpl; tauto|]).
  discriminate.
Qed.

Lemma trimLeft_digit c l :
  mem c semver.numbers = true -> trimLeft (c :: l) = c :: l.
Proof.
  intros H. apply digit_cases in H. simpl in H.
  repeat (destruct H as [<-|H];
          [destruct l as [|c2 [|c3 l]]; reflexivity|]).
  contradiction.
Qed.

Lemma trimRight_digit c r :
  mem c semver.numbers = true -> trimRight (c :: r) = c :: r.
Proof.
  intros H. apply digit_cases in H. simpl in H.
  assert (Hsp : asciiSpace c = false
                /\ (forall c2, space2 c2 c = false)
                /\ (forall c3 c2, space3 c3 c2 c = false)).
  { repeat (destruct H as [<-|H];
            [split; [reflexivity|split];
             [intros c2; unfold space2; cbn; apply andb_false_r
             |intros c3 c2; unfold space3; cbn;
              rewrite !andb_false_r; reflexivity]|]).
    contradiction. }
  destruct Hsp as (H1 & H2 & H3).
  cbn [trimRight]. rewrite H1.
  destruct r as [|c2 r]; [reflexivity|]. rewrite H2.
  destruct r as [|c3 r]; [reflexivity|]. now rewrite H3.
Qed.

Lemma containsOnly_last s set :
  semver.containsOnly s set = true -> s <> "" ->
  exists c r, rev (list_ascii_of_string s) = c :: r /\ mem c set = true.
Proof.
  induction s as [|d s IH]; [contradiction|].
  cbn [semver.containsOnly list_ascii_of_string rev].
  intros H _. apply andb_prop in H as [Hd Hs].
  destruct s as [|e s].
  - exists d, []. now split.
  - destruct (IH Hs ltac:(discriminate)) as (c & r & Hrev & Hc).
    rewrite Hrev. exists c, (r ++ [d])%list. now split.
Qed.

(** White space before a number is what [TrimSpace] removes, no more. *)
Lemma TrimSpace_digits pad s :
  allSpace pad = true ->
  semver.containsOnly s semver.numbers = true -> s <> "" ->
  TrimSpace (pad ++ s) = s.
Proof.
  intros Hpad Hs Hne. unfold TrimSpace.
  rewrite list_ascii_app, (trimLeft_spaces _ _ Hpad).
  destruct (containsOnly_last s _ Hs Hne) as (c & r & Hrev & Hc).
  destruct s as [|d s]; [contradiction|].
  cbn [semver.containsOnly] in Hs. apply andb_prop in Hs as [Hd _].
  cbn [list_ascii_of_string]. rewrite (trimLeft_digit d _ Hd).
  change (d :: list_ascii_of_string s) with (list_ascii_of_string (String d s)).
  rewrite Hrev, (trimRight_digit c r Hc), <- Hrev, rev_involutive.
  apply string_of_list_ascii_of_string.
Qed.

End TokenFacts.

Section NumericTokens.

Lemma Parse_no_dot s : mem "." s = false -> semver.Parse s = None.
Proof.
  intros H. unfold semver.Parse. destruct s as [|c s]; [reflexivity|].
  cbn [SplitN]. now rewrite (Cut_None _ _ H).
Qed.

Lemma digits_not_v s :
  semver.containsOnly s semver.numbers = true -> TrimPrefix s "v" = s.
Proof.
  destruct s as [|c s]; [reflexivity|].
  cbn [semver.containsOnly]. intros H. apply andb_prop in H as [Hc _].
  apply digit_cases in Hc. simpl in Hc.
  repeat (destruct Hc as [<-|Hc]; [reflexivity|]). contradiction.
Qed.

Lemma digits_no_mark s :
  semver.containsOnly s semver.numbers = true -> ContainsAny s "+-" = false.
Proof.
  induction s as [|c s IH]; [reflexivity|].
  cbn [semver.containsOnly ContainsAny]. intros H.
  apply andb_prop in H as [Hc Hs]. rewrite (IH Hs), orb_false_r.
  apply digit_cases in Hc. simpl in Hc.
  repeat (destruct Hc as [<-|Hc]; [reflexivity|]). contradiction.
Qed.

(** The tolerant parser reads a number after white space as the strict
    parser reads the number with [.0.0] after it. *)
Lemma ParseTolerant_number pad n :
  allSpace pad = true ->
  semver.ParseTolerant (pad ++ strconv.FormatUint n) =
  semver.Parse (strconv.FormatUint n ++ ".0.0").
Proof.
  intros Hpad. unfold semver.ParseTolerant.
  rewrite (TrimSpace_digits pad _ Hpad (FormatUint_digits n)
             (FormatUint_nonempty n)).
  rewrite (digits_not_v _ (FormatUint_digits n)).
  cbn [SplitN].
  rewrite (Cut_None _ _ (digits_no_dot _ (FormatUint_digits n))).
  cbn [List.length Nat.ltb Nat.leb semver.last_part last].
  now rewrite (digits_no_mark _ (FormatUint_digits n)).
Qed.

Lemma Parse_number n :
  semver.Parse (strconv.FormatUint n ++ ".0.0") =
  if (n <? strconv.uint64_limit)%N
  then Some (semver.mkVersion n 0 0 [] [])
  else None.
Proof.
  unfold semver.Parse.
  pose proof (FormatUint_nonempty n) as Hne.
  destruct (strconv.FormatUint n ++ ".0.0") as [|c r] eqn:E.
  { destruct (strconv.FormatUint n); [contradiction|discriminate]. }
  rewrite <- E. cbn [SplitN].
  rewrite (Cut_app _ "0.0" "." (digits_no_dot _ (FormatUint_digits n))).
  cbn [Cut Ascii.eqb Bool.eqb].
  destruct (N.ltb_spec n strconv.uint64_limit) as [Hlt|Hge].
  - now rewrite (parseNumber_FormatUint n Hlt).
  - unfold semver.parseNumber.
    rewrite FormatUint_digits, FormatUint_noLeadingZeroes. cbn [negb].
    unfold strconv.ParseUint.
    destruct (strconv.FormatUint n) eqn:EF; [contradiction|]. rewrite <- EF.
    unfold strconv.FormatUint.
    rewrite NilEmpty.usu, DecimalN.Unsigned.of_to.
    apply N.ltb_ge in Hge. now rewrite Hge.
Qed.

Lemma numeric_line_token pad s :
  allSpace pad = true ->
  semver.containsOnly s semver.numbers = true ->
  nth_error (Split (rulesEngineAnchor ++ ":" ++ pad ++ s) ":") 1 =
  Some (pad ++ s) /\ mem "." (pad ++ s) = false.
Proof.
  intros Hpad Hs.
  assert (Hcolon : mem ":" (pad ++ s) = false).
  { rewrite mem_app, (allSpace_mem ":"%char pad Hpad eq_refl).
    now rewrite (containsOnly_mem ":"%char _ _ Hs eq_refl). }
  split.
  - change (rulesEngineAnchor ++ ":" ++ pad ++ s)
      with (rulesEngineAnchor ++ String ":" (pad ++ s)).
    rewrite Split_app by reflexivity.
    now rewrite (Split_None _ _ Hcolon).
  - rewrite mem_app, (allSpace_mem "."%char pad Hpad eq_refl).
    now rewrite (digits_no_dot _ Hs).
Qed.

End NumericTokens.

(** * More on the requirements of rules files *)

(** X1: a requirement written as a number [n] below 2^64, with any ASCII
    white space between the colon and the number, is the minor version
    [0.n.0]. *)
Theorem numeric_requirement_is_minor
  (EngineVersionKey : string) (fsys : os.FileSystem) (filePath : string)
  (file : os.File) (pad : string) (n : N) :
  fsys filePath = inl file ->
  allSpace pad = true ->
  (n < strconv.uint64_limit)%N ->
  firstAnchor (fileLines file) =
    Some (rulesEngineAnchor ++ ":" ++ pad ++ strconv.FormatUint n) ->
  rulesfileRequirement EngineVersionKey fsys filePath =
  Ok (oci.mkArtifactRequirement EngineVersionKey
        ("0." ++ strconv.FormatUint n ++ ".0")).
Proof.
  intros Hopen Hpad Hn Hfirst.
  rewrite (rulesfile_found _ _ _ _ _ Hopen Hfirst).
  destruct (numeric_line_token pad _ Hpad (FormatUint_digits n))
    as [Htoken Hdot].
  unfold parseRequirement. rewrite Htoken, (Parse_no_dot _ Hdot).
  rewrite (ParseTolerant_number pad n Hpad), Parse_number.
  apply N.ltb_lt in Hn. now rewrite Hn.
Qed.

Lemma numeric_requirement_example :
  let file :=
    os.mkFile (unlines ["- required_engine_version:   18446744073709551615"])
      None in
  let fsys := oneFile "rules.yaml" file in
  fsys "rules.yaml" = inl file /\
  allSpace "   " = true /\
  (18446744073709551615 < strconv.uint64_limit)%N /\
  firstAnchor (fileLines file) =
    Some (rulesEngineAnchor ++ ":" ++ "   "
            ++ strconv.FormatUint 18446744073709551615) /\
  rulesfileRequirement "engine_version" fsys "rules.yaml" =
  Ok (oci.mkArtifactRequirement "engine_version"
        "0.18446744073709551615.0").
Proof.
  intros file fsys. do 4 (split; [reflexivity|]).
  exact (numeric_requirement_is_minor "engine_version" fsys "rules.yaml"
           file "   " 18446744073709551615 eq_refl eq_refl eq_refl eq_refl).
Defined.

(** X2: a requirement written as a number of 2^64 or more is refused: the
    error is the parse error, with the text after the colon as operand. *)
Theorem numeric_requirement_overflow
  (EngineVersionKey : string) (fsys : os.FileSystem) (filePath : string)
  (file : os.File) (pad : string) (n : N) :
  fsys filePath = inl file ->
  allSpace pad = true ->
  (strconv.uint64_limit <= n)%N ->
  firstAnchor (fileLines file) =
    Some (rulesEngineAnchor ++ ":" ++ pad ++ strconv.FormatUint n) ->
  rulesfileRequirement EngineVersionKey fsys filePath =
  Err (parseError (pad ++ strconv.FormatUint n)).
Proof.
  intros Hopen Hpad Hn Hfirst.
  rewrite (rulesfile_found _ _ _ _ _ Hopen Hfirst).
  destruct (numeric_line_token pad _ Hpad (FormatUint_digits n))
    as [Htoken Hdot].
  unfold parseRequirement. rewrite Htoken, (Parse_no_dot _ Hdot).
  rewrite (ParseTolerant_number pad n Hpad), Parse_number.
  apply N.ltb_ge in Hn. now rewrite Hn.
Qed.

Lemma numeric_overflow_example :
  let file :=
    os.mkFile (unlines ["- required_engine_version: 18446744073709551616"])
      None in
  let fsys := oneFile "rules.yaml" file in
  fsys "rules.yaml" = inl file /\
  allSpace " " = true /\
  (strconv.uint64_limit <= 18446744073709551616)%N /\
  firstAnchor (fileLines file) =
    Some (rulesEngineAnchor ++ ":" ++ " "
            ++ strconv.FormatUint 18446744073709551616) /\
  rulesfileRequirement "engine_version" fsys "rules.yaml" =
  Err (parseError " 18446744073709551616").
Proof.
  intros file fsys.
  split; [reflexivity|split; [reflexivity|split; [discriminate|]]].
  split; [reflexivity|].
  exact (numeric_requirement_overflow "engine_version" fsys "rules.yaml"
           file " " 18446744073709551616 eq_refl eq_refl
           ltac:(discriminate) eq_refl).
Defined.

(** X3: when the text between the first and the second colon of the anchor
    line is a semantic version as the strict parser reads it (so with no
    white space around it), the version returned is that text, unchanged. *)
Theorem strict_token_is_unchanged
  (EngineVersionKey : string) (fsys : os.FileSystem) (filePath : string)
  (file : os.File) (line token : string) (v : semver.Version) :
  fsys filePath = inl file ->
  firstAnchor (fileLines file) = Some line ->
  nth_error (Split line ":") 1 = Some token ->
  semver.Parse token = Some v ->
  rulesfileRequirement EngineVersionKey fsys filePath =
  Ok (oci.mkArtifactRequirement EngineVersionKey token).
Proof.
  intros Hopen Hfirst Htoken Hstrict.
  rewrite (rulesfile_found _ _ _ _ _ Hopen Hfirst).
  unfold parseRequirement. rewrite Htoken, Hstrict.
  now rewrite (Parse_String _ _ Hstrict).
Qed.

Lemma strict_token_example :
  let file :=
    os.mkFile (unlines ["- required_engine_version:0.26.1-rc.2+build7"])
      None in
  let fsys := oneFile "rules.yaml" file in
  fsys "rules.yaml" = inl file /\
  firstAnchor (fileLines file) =
    Some "- required_engine_version:0.26.1-rc.2+build7" /\
  nth_error (Split "- required_engine_version:0.26.1-rc.2+build7" ":") 1 =
    Some "0.26.1-rc.2+build7" /\
  semver.Parse "0.26.1-rc.2+build7" =
    Some (semver.mkVersion 0 26 1
            [semver.mkPR "rc" 0 false; semver.mkPR "" 2 true] ["build7"]) /\
  rulesfileRequirement "engine_version" fsys "rules.yaml" =
  Ok (oci.mkArtifactRequirement "engine_version" "0.26.1-rc.2+build7").
Proof.
  intros file fsys. do 4 (split; [reflexivity|]).
  exact (strict_token_is_unchanged "engine_version" fsys "rules.yaml" file
           "- required_engine_version:0.26.1-rc.2+build7"
           "0.26.1-rc.2+build7" _ eq_refl eq_refl eq_refl eq_refl).
Defined.

(** X4: when the strict parser refuses the token and the tolerant parser
    reads a version from it, only the major number of that version is kept:
    the version returned is [0.major.0], and the minor number, the patch
    number, the pre-release and the build of the token are dropped. *)
Theorem tolerant_token_keeps_major_only
  (EngineVersionKey : string) (fsys : os.FileSystem) (filePath : string)
  (file : os.File) (line token : string) (v : semver.Version) :
  fsys filePath = inl file ->
  firstAnchor (fileLines file) = Some line ->
  nth_error (Split line ":") 1 = Some token ->
  semver.Parse token = None ->
  semver.ParseTolerant token = Some v ->
  rulesfileRequirement EngineVersionKey fsys filePath =
  Ok (oci.mkArtifactRequirement EngineVersionKey
        ("0." ++ strconv.FormatUint (semver.Major v) ++ ".0")).
Proof.
  intros Hopen Hfirst Htoken Hstrict Htolerant.
  rewrite (rulesfile_found _ _ _ _ _ Hopen Hfirst).
  unfold parseRequirement. now rewrite Htoken, Hstrict, Htolerant.
Qed.

Lemma tolerant_token_example :
  let file :=
    os.mkFile (unlines ["- required_engine_version: v2.7.4-beta+exp"])
      None in
  let fsys := oneFile "rules.yaml" file in
  fsys "rules.yaml" = inl file /\
  firstAnchor (fileLines file) =
    Some "- required_engine_version: v2.7.4-beta+exp" /\
  nth_error (Split "- required_engine_version: v2.7.4-beta+exp" ":") 1 =
    Some " v2.7.4-beta+exp" /\
  semver.Parse " v2.7.4-beta+exp" = None /\
  semver.ParseTolerant " v2.7.4-beta+exp" =
    Some (semver.mkVersion 2 7 4 [semver.mkPR "beta" 0 false] ["exp"]) /\
  rulesfileRequirement "engine_version" fsys "rules.yaml" =
  Ok (oci.mkArtifactRequirement "engine_version" "0.2.0").
Proof.
  intros file fsys. do 5 (split; [reflexivity|]).
  exact (tolerant_token_keeps_major_only "engine_version" fsys "rules.yaml"
           file "- required_engine_version: v2.7.4-beta+exp"
           " v2.7.4-beta+exp" _ eq_refl eq_refl eq_refl eq_refl eq_refl).
Defined.

Lemma parseRequirement_field EngineVersionKey line1 line2 :
  nth_error (Split line1 ":") 1 = nth_error (Split line2 ":") 1 ->
  parseRequirement EngineVersionKey line1 =
  parseRequirement EngineVersionKey line2.
Proof.
  unfold parseRequirement. intros H. rewrite <- H.
  destruct (nth_error (Split line1 ":") 1) eqn:H1; [reflexivity|].
  symmetry in H.
  assert (Hlen : forall l : list string,
            l <> [] -> nth_error l 1 = None -> List.length l = 1).
  { intros [|a [|b l]]; simpl; congruence. }
  now rewrite (Hlen _ (Split_nonempty _ _) H1),
              (Hlen _ (Split_nonempty _ _) H).
Qed.

(** X5: of the first anchor line only the text between its first and its
    second colon counts.  What stands between the anchor and the first
    colon, and what follows a second colon, changes nothing: two files whose
    first anchor lines agree on that text give the same result. *)
Theorem second_field_decides
  (EngineVersionKey : string) (fsys1 fsys2 : os.FileSystem)
  (filePath1 filePath2 : string) (file1 file2 : os.File)
  (key1 key2 token rest : string) :
  fsys1 filePath1 = inl file1 ->
  fsys2 filePath2 = inl file2 ->
  mem ":" key1 = false -> mem ":" key2 = false -> mem ":" token = false ->
  firstAnchor (fileLines file1) = Some (key1 ++ ":" ++ token) ->
  firstAnchor (fileLines file2) = Some (key2 ++ ":" ++ token ++ ":" ++ rest) ->
  rulesfileRequirement EngineVersionKey fsys1 filePath1 =
  rulesfileRequirement EngineVersionKey fsys2 filePath2.
Proof.
  intros Hopen1 Hopen2 Hkey1 Hkey2 Htoken Hfirst1 Hfirst2.
  rewrite (rulesfile_found _ _ _ _ _ Hopen1 Hfirst1).
  rewrite (rulesfile_found _ _ _ _ _ Hopen2 Hfirst2).
  apply parseRequirement_field.
  change (key1 ++ ":" ++ token) with (key1 ++ String ":" token).
  change (key2 ++ ":" ++ token ++ ":" ++ rest)
    with (key2 ++ String ":" (token ++ String ":" rest)).
  rewrite !Split_app by assumption.
  now rewrite (Split_None _ _ Htoken).
Qed.

Lemma second_field_example :
  let file1 := os.mkFile (unlines ["- required_engine_version: 12"]) None in
  let file2 :=
    os.mkFile (unlines ["- required_engine_version_x (old): 12: # was 11"])
      None in
  let fsys1 := oneFile "a.yaml" file1 in
  let fsys2 := oneFile "b.yaml" file2 in
  rulesfileRequirement "engine_version" fsys1 "a.yaml" =
    Ok (oci.mkArtifactRequirement "engine_version" "0.12.0") /\
  rulesfileRequirement "engine_version" fsys1 "a.yaml" =
  rulesfileRequirement "engine_version" fsys2 "b.yaml".
Proof.
  intros file1 file2 fsys1 fsys2. split; [reflexivity|].
  exact (second_field_decides "engine_version" fsys1 fsys2 "a.yaml" "b.yaml"
           file1 file2 "- required_engine_version"
           "- required_engine_version_x (old)" " 12" " # was 11"
           eq_refl eq_refl eq_refl eq_refl eq_refl eq_refl eq_refl).
Defined.

(** X6: the rules extractor panics in one case only, with an index out of
    range: the file opens and its first anchor line has no colon. *)
Theorem panic_only_without_colon
  (EngineVersionKey : string) (fsys : os.FileSystem) (filePath : string)
  (p : runtimeError) :
  rulesfileRequirement EngineVersionKey fsys filePath = Panic p <->
  p = IndexOutOfRange 1 1 /\
  exists file line,
    fsys filePath = inl file /\
    firstAnchor (fileLines file) = Some line /\
    mem ":" line = false.
Proof.
  split.
  - destruct (fsys filePath) as [file|cause] eqn:Hopen.
    + destruct (firstAnchor (fileLines file)) as [line|] eqn:Hfirst.
      * rewrite (rulesfile_found _ _ _ file line Hopen Hfirst).
        destruct (mem ":" line) eqn:Hcolon.
        -- destruct (Split_mem _ _ Hcolon) as (f & g & rest & Hsplit).
           unfold parseRequirement. rewrite Hsplit. simpl.
           destruct (semver.Parse g); [discriminate|].
           destruct (semver.ParseTolerant g); discriminate.
        -- unfold parseRequirement. rewrite (Split_None _ _ Hcolon). simpl.
           intros H; inversion H. split; [reflexivity|].
           exists file, line. now repeat split.
      * now rewrite (rulesfile_absent _ _ _ file Hopen Hfirst).
    + now rewrite (rulesfile_unopened _ _ _ cause Hopen).
  - intros (-> & file & line & Hopen & Hfirst & Hcolon).
    rewrite (rulesfile_found _ _ _ file line Hopen Hfirst).
    unfold parseRequirement. now rewrite (Split_None _ _ Hcolon).
Qed.

(** X7: a requirement that the rules extractor returns is always named
    [EngineVersionKey]. *)
Theorem rulesfile_name_is_engine_key
  (EngineVersionKey : string) (fsys : os.FileSystem) (filePath : string)
  (requirement : oci.ArtifactRequirement) :
  rulesfileRequirement EngineVersionKey fsys filePath = Ok requirement ->
  oci.Name requirement = EngineVersionKey.
Proof.
  destruct (fsys filePath) as [file|cause] eqn:Hopen.
  - destruct (firstAnchor (fileLines file)) as [line|] eqn:Hfirst.
    + rewrite (rulesfile_found _ _ _ file line Hopen Hfirst).
      unfold parseRequirement.
      destruct (nth_error (Split line ":") 1) as [token1|]; [|discriminate].
      destruct (semver.Parse token1);
        [|destruct (semver.ParseTolerant token1); [|discriminate]];
        intros H; inversion H; reflexivity.
    + now rewrite (rulesfile_absent _ _ _ file Hopen Hfirst).
  - now rewrite (rulesfile_unopened _ _ _ cause Hopen).
Qed.

Lemma rulesfile_name_example :
  let file := os.mkFile (unlines ["- required_engine_version: 9"]) None in
  let fsys := oneFile "rules.yaml" file in
  rulesfileRequirement "engine_version" fsys "rules.yaml" =
    Ok (oci.mkArtifactRequirement "engine_version" "0.9.0") /\
  oci.Name (oci.mkArtifactRequirement "engine_version" "0.9.0") =
    "engine_version".
Proof.
  intros file fsys. split; [reflexivity|].
  exact (rulesfile_name_is_engine_key "engine_version" fsys "rules.yaml"
           (oci.mkArtifactRequirement "engine_version" "0.9.0") eq_refl).
Defined.

(** X8: an error of the rules extractor matches [ErrReqNotFound] exactly
    when the file was opened and the scan read no line with the anchor
    prefix; the errors of a file that does not open and of a version that
    does not parse never match it. *)
Theorem not_found_is_matched_exactly
  (EngineVersionKey : string) (fsys : os.FileSystem) (filePath : string)
  (err : error) :
  rulesfileRequirement EngineVersionKey fsys filePath = Err err ->
  (errors.Is err ErrReqNotFound = true <->
   exists file,
     fsys filePath = inl file /\ firstAnchor (fileLines file) = None).
Proof.
  destruct (fsys filePath) as [file|cause] eqn:Hopen.
  - destruct (firstAnchor (fileLines file)) as [line|] eqn:Hfirst.
    + rewrite (rulesfile_found _ _ _ file line Hopen Hfirst).
      unfold parseRequirement.
      destruct (nth_error (Split line ":") 1) as [token1|]; [|discriminate].
      destruct (semver.Parse token1); [discriminate|].
      destruct (semver.ParseTolerant token1); [discriminate|].
      intros H; inversion H; subst err. split; [discriminate|].
      intros (file' & Hfile' & Hnone).
      inversion Hfile'; subst file'. congruence.
    + rewrite (rulesfile_absent _ _ _ file Hopen Hfirst).
      intros H; inversion H; subst err. split; [|reflexivity].
      intros _. now exists file.
  - rewrite (rulesfile_unopened _ _ _ cause Hopen).
    intros H; inversion H; subst err. split; [discriminate|].
    intros (file' & Hfile' & _). discriminate.
Qed.

Lemma not_found_matched_example :
  let fsys := oneFile "rules.yaml" (os.mkFile (unlines ["- rule: r"]) None) in
  rulesfileRequirement "engine_version" fsys "absent.yaml" =
    Err (openError "absent.yaml") /\
  (errors.Is (openError "absent.yaml") ErrReqNotFound = true <->
   exists file,
     fsys "absent.yaml" = inl file /\ firstAnchor (fileLines file) = None).
Proof.
  intros fsys. split; [reflexivity|].
  exact (not_found_is_matched_exactly "engine_version" fsys "absent.yaml"
           (openError "absent.yaml") eq_refl).
Defined.

(** * More on the scan of a rules file *)

Section LineFacts.

Lemma len_app (a b : string) : (len (a ++ b) = len a + len b)%N.
Proof. induction a; simpl; [reflexivity|]. rewrite IHa. lia. Qed.

Lemma unlines_app lines1 lines2 :
  unlines (lines1 ++ lines2)%list = unlines lines1 ++ unlines lines2.
Proof.
  induction lines1 as [|line lines1 IH]; simpl; [reflexivity|].
  now rewrite IH, append_assoc.
Qed.

(** [Scan] does not read the token of the scanner. *)
Lemma scanAll_token fuel src srcErr token token' err :
  scanAll (S fuel) (bufio.mkScanner src srcErr token err) =
  scanAll (S fuel) (bufio.mkScanner src srcErr token' err).
Proof. reflexivity. Qed.

(** Ordinary lines are read one by one, and the scan goes on with the rest
    of the file. *)
Lemma scanAll_lines lines tail fuel srcErr token :
  List.Forall ordinary lines ->
  String.length (unlines lines ++ tail) < fuel ->
  scanAll fuel (bufio.mkScanner (unlines lines ++ tail) srcErr token None) =
  (let (more, stop) := scanAll fuel (bufio.mkScanner tail srcErr "" None) in
   ((lines ++ more)%list, stop)).
Proof.
  intros Hlines; revert fuel token.
  induction Hlines as [|line lines (Hnl & Hcr & Hlen) _ IH];
    intros fuel token Hfuel.
  - cbn [unlines append app] in *.
    destruct fuel as [|fuel]; [lia|].
    rewrite (scanAll_token _ _ _ token "").
    now destruct (scanAll (S fuel) _).
  - destruct fuel as [|fuel]; [lia|].
    cbn [unlines] in *. rewrite append_assoc in *.
    cbn [append] in *. rewrite length_app in Hfuel. cbn [String.length] in Hfuel.
    pose proof (length_app (unlines lines) tail) as Htail.
    rewrite (scanAll_fuel (S fuel) fuel (bufio.mkScanner tail srcErr "" None))
      by (cbn [bufio.src]; lia).
    cbn [scanAll]. rewrite (Scan_line _ _ _ _ Hnl Hlen).
    rewrite (IH fuel (bufio.dropCR line)) by lia.
    destruct (scanAll fuel (bufio.mkScanner tail srcErr "" None)).
    cbn [bufio.Text bufio.token]. now rewrite Hcr.
Qed.

Lemma dropCR_CR line : bufio.dropCR (line ++ String "013" "") = line.
Proof.
  induction line as [|c line IH]; [reflexivity|].
  cbn [append bufio.dropCR].
  destruct (line ++ String "013" "") eqn:E.
  - destruct line; discriminate.
  - now rewrite IH.
Qed.

(** The same with a carriage return before each newline. *)
Lemma scanAll_linesCRLF lines fuel srcErr token :
  List.Forall fitsCRLF lines ->
  String.length (unlinesCRLF lines) < fuel ->
  fst (scanAll fuel (bufio.mkScanner (unlinesCRLF lines) srcErr token None))
  = lines.
Proof.
  intros Hlines; revert fuel token.
  induction Hlines as [|line lines (Hnl & Hlen) _ IH]; intros fuel token Hfuel.
  - destruct fuel as [|fuel]; [simpl in Hfuel; lia|reflexivity].
  - destruct fuel as [|fuel]; [lia|].
    cbn [unlinesCRLF] in *.
    change (line ++ String "013" (String bufio.newline (unlinesCRLF lines)))
      with (line ++ (String "013" "" ++
                     String bufio.newline (unlinesCRLF lines))) in *.
    rewrite <- append_assoc in *.
    rewrite length_app in Hfuel. cbn [String.length] in Hfuel.
    cbn [scanAll]. rewrite Scan_line.
    + specialize (IH fuel (bufio.dropCR (line ++ String "013" ""))
                    ltac:(lia)).
      destruct (scanAll fuel _) as [ls stop]. simpl in *.
      now rewrite dropCR_CR, IH.
    + rewrite mem_app, Hnl. reflexivity.
    + rewrite len_app. exact Hlen.
Qed.

(** The last line is read without its newline, too. *)
Lemma scanAll_last last fuel :
  ordinary last -> last <> "" -> String.length last < fuel ->
  scanAll fuel (bufio.mkScanner last None "" None) =
  ([last], bufio.mkScanner "" None "" None).
Proof.
  intros (Hnl & Hcr & Hlen) Hne Hfuel.
  destruct last as [|c last]; [contradiction|].
  destruct fuel as [|[|fuel]]; [lia|simpl in Hfuel; lia|].
  cbn [scanAll]. unfold bufio.Scan at 1.
  cbn [bufio.err bufio.src bufio.srcErr].
  rewrite (Cut_None _ _ Hnl). apply N.ltb_lt in Hlen. rewrite Hlen.
  cbn [bufio.Text bufio.token]. rewrite Hcr. reflexivity.
Qed.

Lemma Cut_prefix a b sep :
  mem sep a = false ->
  Cut (a ++ b) sep =
  match Cut b sep with
  | Some (before, after) => Some (a ++ before, after)
  | None => None
  end.
Proof.
  induction a as [|c a IH]; simpl; intros H.
  - now destruct (Cut b sep) as [[? ?]|].
  - apply orb_false_elim in H as [Hc Ha].
    rewrite Ascii.eqb_sym, Hc, (IH Ha).
    now destruct (Cut b sep) as [[? ?]|].
Qed.

(** The scan stops at a line that does not fit the buffer, whatever comes
    after it. *)
Lemma scanAll_long long rest fuel :
  mem bufio.newline long = false ->
  (bufio.MaxScanTokenSize <= len long)%N ->
  scanAll (S fuel) (bufio.mkScanner (long ++ rest) None "" None) =
  ([], bufio.mkScanner (long ++ rest) None "" (Some bufio.ErrTooLong)).
Proof.
  intros Hnl Hlen. cbn [scanAll]. unfold bufio.Scan.
  cbn [bufio.err bufio.src bufio.srcErr].
  destruct (long ++ rest) as [|c s] eqn:E.
  { destruct long; [|discriminate]. simpl in Hlen.
    unfold bufio.MaxScanTokenSize in Hlen. lia. }
  rewrite <- E, (Cut_prefix _ _ _ Hnl).
  destruct (Cut rest bufio.newline) as [[before after]|].
  - assert (H : (len (long ++ before) <? bufio.MaxScanTokenSize)%N = false).
    { apply N.ltb_ge. rewrite len_app. lia. }
    now rewrite H.
  - assert (H : (len (long ++ rest) <? bufio.MaxScanTokenSize)%N = false).
    { apply N.ltb_ge. rewrite len_app. lia. }
    now rewrite H.
Qed.

End LineFacts.

Section ErrorFacts.

Lemma PathError_eqb_refl e : PathError_eqb e e = true.
Proof. unfold PathError_eqb. now rewrite !String.eqb_refl. Qed.

Lemma File_eqb_refl f : File_eqb f f = true.
Proof.
  unfold File_eqb. rewrite String.eqb_refl.
  destruct (os.readErr f); simpl; [apply PathError_eqb_refl|reflexivity].
Qed.

Lemma error_eqb_refl : forall e, error_eqb e e = true.
Proof.
  fix IH 1. intros [text|e|format a].
  - apply String.eqb_refl.
  - apply PathError_eqb_refl.
  - cbn [error_eqb]. rewrite String.eqb_refl. cbn [andb].
    revert a. fix IHa 1. intros [|o a]; [reflexivity|].
    rewrite IHa, andb_true_r.
    destruct o as [s|file|e]; cbn [operand_eqb].
    + apply String.eqb_refl.
    + destruct file; simpl; [apply File_eqb_refl|reflexivity].
    + apply IH.
Qed.

(** An error is itself, and so is what wraps it. *)
Lemma Is_refl e : errors.Is e e = true.
Proof. destruct e; cbn [errors.Is]; now rewrite error_eqb_refl. Qed.

End ErrorFacts.

(** Two files that open and are read as the same lines give the same
    result under the same path. *)
Lemma rulesfile_by_lines EngineVersionKey fsys1 fsys2 filePath file1 file2 :
  fsys1 filePath = inl file1 ->
  fsys2 filePath = inl file2 ->
  fileLines file1 = fileLines file2 ->
  rulesfileRequirement EngineVersionKey fsys1 filePath =
  rulesfileRequirement EngineVersionKey fsys2 filePath.
Proof.
  intros Hopen1 Hopen2 Hlines.
  destruct (firstAnchor (fileLines file1)) as [line|] eqn:Hfirst.
  - rewrite (rulesfile_found _ _ _ _ _ Hopen1 Hfirst).
    rewrite Hlines in Hfirst.
    now rewrite (rulesfile_found _ _ _ _ _ Hopen2 Hfirst).
  - rewrite (rulesfile_absent _ _ _ _ Hopen1 Hfirst).
    rewrite Hlines in Hfirst.
    now rewrite (rulesfile_absent _ _ _ _ Hopen2 Hfirst).
Qed.

(** X9: line endings do not matter: a rules file whose lines end with a
    carriage return and a newline gives the result of the same lines ended
    by a newline alone. *)
Theorem crlf_file_as_lf_file
  (EngineVersionKey : string) (fsys1 fsys2 : os.FileSystem)
  (filePath : string) (lines : list string) :
  fsys1 filePath = inl (os.mkFile (unlines lines) None) ->
  fsys2 filePath = inl (os.mkFile (unlinesCRLF lines) None) ->
  List.Forall ordinary lines ->
  List.Forall fitsCRLF lines ->
  rulesfileRequirement EngineVersionKey fsys2 filePath =
  rulesfileRequirement EngineVersionKey fsys1 filePath.
Proof.
  intros Hopen1 Hopen2 Hordinary Hfits.
  apply (rulesfile_by_lines _ _ _ _ _ _ Hopen2 Hopen1).
  rewrite (fileLines_unlines _ Hordinary).
  unfold fileLines, fileScan.
  change (bufio.NewScanner (Some (os.mkFile (unlinesCRLF lines) None)))
    with (bufio.mkScanner (unlinesCRLF lines) None "" None).
  apply (scanAll_linesCRLF lines _ None "" Hfits). cbn [os.data]. lia.
Qed.

Lemma crlf_file_example :
  let lines := ["# rules"; "- required_engine_version: 4"; "- rule: r"] in
  let fsys1 := oneFile "rules.yaml" (os.mkFile (unlines lines) None) in
  let fsys2 := oneFile "rules.yaml" (os.mkFile (unlinesCRLF lines) None) in
  List.Forall ordinary lines /\
  List.Forall fitsCRLF lines /\
  rulesfileRequirement "engine_version" fsys2 "rules.yaml" =
    Ok (oci.mkArtifactRequirement "engine_version" "0.4.0") /\
  rulesfileRequirement "engine_version" fsys2 "rules.yaml" =
  rulesfileRequirement "engine_version" fsys1 "rules.yaml".
Proof.
  intros lines fsys1 fsys2.
  assert (Hordinary : List.Forall ordinary lines).
  { repeat constructor. }
  assert (Hfits : List.Forall fitsCRLF lines).
  { repeat constructor. }
  split; [exact Hordinary|split; [exact Hfits|split; [reflexivity|]]].
  exact (crlf_file_as_lf_file "engine_version" fsys1 fsys2 "rules.yaml"
           lines eq_refl eq_refl Hordinary Hfits).
Defined.

(** X10: the last line of a rules file is read whether or not a newline ends
    it: a file without the final newline gives the result of the file with
    it, so a requirement on the last line is found either way. *)
Theorem final_newline_is_optional
  (EngineVersionKey : string) (fsys1 fsys2 : os.FileSystem)
  (filePath : string) (lines : list string) (last : string) :
  fsys1 filePath = inl (os.mkFile (unlines (lines ++ [last])) None) ->
  fsys2 filePath = inl (os.mkFile (unlines lines ++ last) None) ->
  List.Forall ordinary lines ->
  ordinary last -> last <> "" ->
  fileLines (os.mkFile (unlines lines ++ last) None) =
    (lines ++ [last])%list /\
  rulesfileRequirement EngineVersionKey fsys2 filePath =
  rulesfileRequirement EngineVersionKey fsys1 filePath.
Proof.
  intros Hopen1 Hopen2 Hlines Hlast Hne.
  assert (Hread : fileLines (os.mkFile (unlines lines ++ last) None) =
                  (lines ++ [last])%list).
  { unfold fileLines, fileScan.
    change (bufio.NewScanner (Some (os.mkFile (unlines lines ++ last) None)))
      with (bufio.mkScanner (unlines lines ++ last) None "" None).
    cbn [os.data].
    rewrite (scanAll_lines lines last _ None "" Hlines) by lia.
    rewrite (scanAll_last last _ Hlast Hne); [reflexivity|].
    rewrite length_app. lia. }
  split; [exact Hread|].
  apply (rulesfile_by_lines _ _ _ _ _ _ Hopen2 Hopen1).
  rewrite Hread. symmetry. apply fileLines_unlines.
  apply Forall_app. split; [exact Hlines|]. now constructor.
Qed.

Lemma final_newline_example :
  let lines := ["# rules"; "- rule: r"] in
  let last := "- required_engine_version: 5" in
  let fsys1 :=
    oneFile "rules.yaml" (os.mkFile (unlines (lines ++ [last])) None) in
  let fsys2 :=
    oneFile "rules.yaml" (os.mkFile (unlines lines ++ last) None) in
  List.Forall ordinary lines /\ ordinary last /\ last <> "" /\
  rulesfileRequirement "engine_version" fsys2 "rules.yaml" =
    Ok (oci.mkArtifactRequirement "engine_version" "0.5.0") /\
  rulesfileRequirement "engine_version" fsys2 "rules.yaml" =
  rulesfileRequirement "engine_version" fsys1 "rules.yaml".
Proof.
  intros lines last fsys1 fsys2.
  assert (Hlines : List.Forall ordinary lines).
  { repeat constructor. }
  assert (Hlast : ordinary last).
  { repeat constructor. }
  assert (Hne : last <> "").
  { discriminate. }
  split; [exact Hlines|split; [exact Hlast|split; [exact Hne|]]].
  split; [reflexivity|].
  exact (proj2 (final_newline_is_optional "engine_version" fsys1 fsys2
                  "rules.yaml" lines last eq_refl eq_refl
                  Hlines Hlast Hne)).
Defined.

(** X11: a line of 65536 bytes or more hides what follows it.  When such a
    line comes after ordinary lines without the anchor prefix, the scan
    stops at it with [ErrTooLong] and the file is reported to have no
    requirement, whatever the rest of the file holds. *)
Theorem long_line_hides_the_rest
  (EngineVersionKey : string) (fsys : os.FileSystem) (filePath : string)
  (lines : list string) (long rest : string) :
  fsys filePath = inl (os.mkFile (unlines lines ++ long ++ rest) None) ->
  List.Forall ordinary lines ->
  List.Forall (fun line => HasPrefix line rulesEngineAnchor = false) lines ->
  mem bufio.newline long = false ->
  (bufio.MaxScanTokenSize <= len long)%N ->
  fileLines (os.mkFile (unlines lines ++ long ++ rest) None) = lines /\
  fileErr (os.mkFile (unlines lines ++ long ++ rest) None) =
    Some bufio.ErrTooLong /\
  rulesfileRequirement EngineVersionKey fsys filePath =
  Err (notFound filePath).
Proof.
  intros Hopen Hlines Hnone Hnl Hlen.
  assert (Hscan : fileScan (os.mkFile (unlines lines ++ long ++ rest) None) =
                  (lines, bufio.mkScanner (long ++ rest) None ""
                            (Some bufio.ErrTooLong))).
  { unfold fileScan.
    change (bufio.NewScanner
              (Some (os.mkFile (unlines lines ++ long ++ rest) None)))
      with (bufio.mkScanner (unlines lines ++ long ++ rest) None "" None).
    cbn [os.data].
    rewrite (scanAll_lines lines (long ++ rest) _ None "" Hlines) by lia.
    rewrite (scanAll_long long rest _ Hnl Hlen).
    now rewrite List.app_nil_r. }
  assert (Hread : fileLines (os.mkFile (unlines lines ++ long ++ rest) None)
                  = lines).
  { unfold fileLines. now rewrite Hscan. }
  split; [exact Hread|split].
  - unfold fileErr. now rewrite Hscan.
  - apply (rulesfile_absent _ _ _ _ Hopen).
    rewrite Hread. now apply Forall_firstAnchor_None.
Qed.

Lemma long_line_example :
  let lines := ["# rules"] in
  let long := longLine 65536 in
  let rest := String bufio.newline "- required_engine_version: 3" in
  let fsys :=
    oneFile "rules.yaml" (os.mkFile (unlines lines ++ long ++ rest) None) in
  List.Forall ordinary lines /\
  mem bufio.newline long = false /\
  (bufio.MaxScanTokenSize <= len long)%N /\
  rulesfileRequirement "engine_version" fsys "rules.yaml" =
  Err (notFound "rules.yaml").
Proof.
  intros lines long rest fsys.
  assert (Hlines : List.Forall ordinary lines).
  { repeat constructor. }
  assert (Hnone : List.Forall
            (fun line => HasPrefix line rulesEngineAnchor = false) lines).
  { repeat constructor. }
  assert (Hnl : mem bufio.newline long = false).
  { vm_compute. reflexivity. }
  assert (Hlen : (bufio.MaxScanTokenSize <= len long)%N).
  { vm_compute. discriminate. }
  split; [exact Hlines|split; [exact Hnl|split; [exact Hlen|]]].
  exact (proj2 (proj2 (long_line_hides_the_rest "engine_version" fsys
                         "rules.yaml" lines long rest eq_refl
                         Hlines Hnone Hnl Hlen))).
Defined.

(** * More on the requirements of plugins *)

(** X12: when the loader cannot open the plugin, [pluginRequirement] returns
    an error that has the file path as an operand and wraps the error of the
    loader: [errors.Unwrap] gives that error back and [errors.Is] matches
    it. *)
Theorem plugin_failure_wraps_the_cause
  (PluginAPIVersion : string) (NewPlugin : loader.Loader) (filePath : string)
  (cause : error) :
  NewPlugin filePath = inr cause ->
  pluginRequirement PluginAPIVersion NewPlugin filePath =
  Err (Errorf "unable to open plugin %q: %w" [Q filePath; W cause]) /\
  errors.Unwrap (Errorf "unable to open plugin %q: %w" [Q filePath; W cause])
  = Some cause /\
  errors.Is (Errorf "unable to open plugin %q: %w" [Q filePath; W cause])
    cause = true.
Proof.
  intros Hopen. unfold pluginRequirement. rewrite Hopen.
  split; [reflexivity|split; [reflexivity|]].
  cbn [errors.Is]. now rewrite Is_refl, orb_true_r.
Qed.

Lemma plugin_failure_example :
  let NewPlugin :=
    onePlugin "libk8saudit.so" (loader.mkPlugin (loader.mkInfo "2.0.0")) in
  NewPlugin "libabsent.so" = inr (New "cannot load plugin") /\
  pluginRequirement "plugin_api_version" NewPlugin "libabsent.so" =
  Err (Errorf "unable to open plugin %q: %w"
         [Q "libabsent.so"; W (New "cannot load plugin")]).
Proof.
  intros NewPlugin. split; [reflexivity|].
  exact (proj1 (plugin_failure_wraps_the_cause "plugin_api_version"
                  NewPlugin "libabsent.so" (New "cannot load plugin")
                  eq_refl)).
Defined.

(** * More on what the rules extractor reads *)

(** X13: a rules file gives the result of its first anchor line alone.  The
    ordinary lines before it, without the anchor prefix, and all that
    follows it (more lines, a line too long for the buffer, a read that
    fails) change nothing. *)
Theorem first_anchor_line_alone
  (EngineVersionKey : string) (fsys1 fsys2 : os.FileSystem)
  (filePath1 filePath2 : string) (before : list string)
  (first tail : string) (readErr : option os.PathError) :
  fsys1 filePath1 =
    inl (os.mkFile (unlines (before ++ [first]) ++ tail) readErr) ->
  fsys2 filePath2 = inl (os.mkFile (unlines [first]) None) ->
  List.Forall ordinary before -> ordinary first ->
  List.Forall (fun line => HasPrefix line rulesEngineAnchor = false) before ->
  HasPrefix first rulesEngineAnchor = true ->
  rulesfileRequirement EngineVersionKey fsys1 filePath1 =
  rulesfileRequirement EngineVersionKey fsys2 filePath2.
Proof.
  intros Hopen1 Hopen2 Hbefore Hfirst Hnone Hanchor.
  assert (Hlines : List.Forall ordinary (before ++ [first])).
  { apply Forall_app. split; [exact Hbefore|]. now constructor. }
  assert (H1 : firstAnchor
                 (fileLines
                    (os.mkFile (unlines (before ++ [first]) ++ tail) readErr))
               = Some first).
  { unfold fileLines, fileScan.
    change (bufio.NewScanner
              (Some (os.mkFile (unlines (before ++ [first]) ++ tail) readErr)))
      with (bufio.mkScanner (unlines (before ++ [first]) ++ tail)
              (option_map bufio.ReadError readErr) "" None).
    cbn [os.data].
    rewrite (scanAll_lines _ tail _ _ "" Hlines) by lia.
    destruct (scanAll _ (bufio.mkScanner tail _ "" None)) as [more stop].
    cbn [fst]. rewrite <- List.app_assoc.
    now apply firstAnchor_app. }
  assert (H2 : firstAnchor (fileLines (os.mkFile (unlines [first]) None))
               = Some first).
  { rewrite fileLines_unlines by now constructor.
    apply (firstAnchor_app [] first []); [constructor|exact Hanchor]. }
  rewrite (rulesfile_found _ _ _ _ _ Hopen1 H1).
  now rewrite (rulesfile_found _ _ _ _ _ Hopen2 H2).
Qed.

Lemma first_anchor_line_example :
  let before := ["# rules"; "- rule: r"] in
  let first := "- required_engine_version: 6" in
  let tail := longLine 65536 in
  let readErr := Some (os.mkPathError "read" "a.yaml" "input/output error") in
  let fsys1 :=
    oneFile "a.yaml"
      (os.mkFile (unlines (before ++ [first]) ++ tail) readErr) in
  let fsys2 := oneFile "b.yaml" (os.mkFile (unlines [first]) None) in
  List.Forall ordinary before /\ ordinary first /\
  rulesfileRequirement "engine_version" fsys2 "b.yaml" =
    Ok (oci.mkArtifactRequirement "engine_version" "0.6.0") /\
  rulesfileRequirement "engine_version" fsys1 "a.yaml" =
  rulesfileRequirement "engine_version" fsys2 "b.yaml".
Proof.
  intros before first tail readErr fsys1 fsys2.
  assert (Hbefore : List.Forall ordinary before).
  { repeat constructor. }
  assert (Hfirst : ordinary first).
  { repeat constructor. }
  assert (Hnone : List.Forall
            (fun line => HasPrefix line rulesEngineAnchor = false) before).
  { repeat constructor. }
  split; [exact Hbefore|split; [exact Hfirst|split; [reflexivity|]]].
  exact (first_anchor_line_alone "engine_version" fsys1 fsys2
           "a.yaml" "b.yaml" before first tail readErr eq_refl eq_refl
           Hbefore Hfirst Hnone eq_refl).
Defined.

Lemma TrimSpace_spaces pad : allSpace pad = true -> TrimSpace pad = "".
Proof.
  intros Hpad. unfold TrimSpace.
  rewrite <- (List.app_nil_r (list_ascii_of_string pad)).
  now rewrite (trimLeft_spaces pad [] Hpad).
Qed.

(** X14: an anchor line with nothing but ASCII white space between its
    colon and its end (or nothing at all) is a parse error, with that white
    space as operand: a missing value is never read as a version. *)
Theorem missing_value_is_parse_error
  (EngineVersionKey : string) (fsys : os.FileSystem) (filePath : string)
  (file : os.File) (pad : string) :
  fsys filePath = inl file ->
  allSpace pad = true ->
  firstAnchor (fileLines file) = Some (rulesEngineAnchor ++ ":" ++ pad) ->
  rulesfileRequirement EngineVersionKey fsys filePath =
  Err (parseError pad).
Proof.
  intros Hopen Hpad Hfirst.
  rewrite (rulesfile_found _ _ _ _ _ Hopen Hfirst).
  unfold parseRequirement.
  change (rulesEngineAnchor ++ ":" ++ pad)
    with (rulesEngineAnchor ++ String ":" pad).
  rewrite Split_app by reflexivity.
  rewrite (Split_None _ _ (allSpace_mem ":"%char pad Hpad eq_refl)).
  cbn [nth_error].
  rewrite (Parse_no_dot _ (allSpace_mem "."%char pad Hpad eq_refl)).
  unfold semver.ParseTolerant. now rewrite (TrimSpace_spaces pad Hpad).
Qed.

Lemma missing_value_example :
  let file := os.mkFile (unlines ["- required_engine_version:  "]) None in
  let fsys := oneFile "rules.yaml" file in
  fsys "rules.yaml" = inl file /\
  allSpace "  " = true /\
  firstAnchor (fileLines file) = Some (rulesEngineAnchor ++ ":" ++ "  ") /\
  rulesfileRequirement "engine_version" fsys "rules.yaml" =
  Err (parseError "  ").
Proof.
  intros file fsys. do 3 (split; [reflexivity|]).
  exact (missing_value_is_parse_error "engine_version" fsys "rules.yaml"
           file "  " eq_refl eq_refl eq_refl).
Defined.
